(** * Mortgage affordability calculator: a shallow embedding

    The embedded program is [mortgage_analyzer.py]: the calculator
    [calculate_affordability], the scenario runner
    [run_scenario_testing], the report renderer [generate_pdf_report]
    and [main].

    Python's [float] is IEEE 754 binary64.  The program text is embedded
    over an interface [PyFloat] that lists the float operations the
    source uses, and it is run on [Binary64]: binary64 itself, as the
    [spec_float] of the Standard Library with precision 53 and maximal
    exponent 1024, every operation rounded to nearest even.  Where a
    statement is about the size of a rounding error, a float is read as
    the real number it stands for ([B2R]).

    Python raises [ZeroDivisionError] when the divisor of a float [/] is
    zero and [OverflowError] when a float [**] overflows; both are
    results of the embedded functions ([outcome]). *)

From Stdlib Require Import ZArith List String Ascii Bool Lia.
From Stdlib Require Import Rbase Rfunctions Lra.
From Stdlib Require Import Floats.SpecFloat.
Import ListNotations.

(** ** Exceptions and results *)

Inductive exn : Type :=
  | ZeroDivisionError
  | OverflowError.

Inductive outcome (A : Type) : Type :=
  | Return (a : A)
  | Raise (e : exn).

Arguments Return {A} a.
Arguments Raise {A} e.

Definition bind {A B : Type} (c : outcome A) (k : A -> outcome B) : outcome B :=
  match c with
  | Return a => k a
  | Raise e => Raise e
  end.

Declare Scope py_scope.
Delimit Scope py_scope with py.
Notation "x <- c ;; k" := (bind c (fun x => k))
  (at level 61, c at next level, right associativity) : py_scope.

(** ** The float operations of the source *)

Class PyFloat (F : Type) : Type := {
  (** conversion of an [int] operand: [1 + x], [x / 100], [x > 0] *)
  of_int : Z -> F;
  (** the float literals [4.5] and [1.5] *)
  lit_4_5 : F;
  lit_1_5 : F;
  fadd : F -> F -> F;
  fsub : F -> F -> F;
  fmul : F -> F -> F;
  (** the quotient [/] computes once the divisor is known not to be zero *)
  fquot : F -> F -> F;
  (** [y == 0.0], the test [/] makes on its divisor *)
  is_zero : F -> bool;
  (** [x < y] *)
  flt : F -> F -> bool;
  (** [x ** n] for a positive [int] exponent *)
  fpow : F -> positive -> outcome F
}.

Section Operators.
Context {F : Type} `{PyFloat F}.

(** [x / y]: Python raises on a zero divisor instead of producing an
    infinity or a NaN. *)
Definition truediv (x y : F) : outcome F :=
  if is_zero y then Raise ZeroDivisionError else Return (fquot x y).

(** [x > y] *)
Definition fgt (x y : F) : bool := flt y x.
End Operators.

Infix "+" := fadd : py_scope.
Infix "-" := fsub : py_scope.
Infix "*" := fmul : py_scope.
Infix "/" := truediv : py_scope.
Infix "**" := fpow (at level 30, right associativity) : py_scope.
Infix "<?" := flt : py_scope.
Infix ">?" := fgt (at level 70) : py_scope.

(** ** Data model *)

(** The dictionary [calculate_affordability] returns: eight fixed keys. *)
Module Result.
Record t (F : Type) : Type := Build {
  income : F;
  deposit : F;
  monthly_debts : F;
  interest_rate : F;
  max_loan_amount : F;
  affordable_property_price : F;
  estimated_monthly_payment : F;
  dti_ratio : F
}.
Arguments Build {F}.
Arguments income {F}.
Arguments deposit {F}.
Arguments monthly_debts {F}.
Arguments interest_rate {F}.
Arguments max_loan_amount {F}.
Arguments affordable_property_price {F}.
Arguments estimated_monthly_payment {F}.
Arguments dti_ratio {F}.
End Result.

(** The inner dictionaries of [scenarios]: keys ["rate"] and ["deposit"]. *)
Module Params.
Record t (F : Type) : Type := Build {
  rate : F;
  deposit : F
}.
Arguments Build {F}.
Arguments rate {F}.
Arguments deposit {F}.
End Params.

Local Open Scope string_scope.

Definition newline : string := String (ascii_of_nat 10) EmptyString.

Section Program.
Context {F : Type} `{PyFloat F}.

(** *** Core financial constants *)

Definition INCOME_MULTIPLIER : F := lit_4_5.
(** An [int]; it is embedded as a [positive] because the program only
    uses it, times 12, as the exponent of [**] and as a divisor. *)
Definition MORTGAGE_TERM_YEARS : positive := 30.

(** *** [calculate_affordability] *)

Definition calculate_affordability
    (income deposit monthly_debts interest_rate_annual : F)
    : outcome (Result.t F) :=
  (let max_loan_from_income := income * INCOME_MULTIPLIER in
   let affordable_property_price := max_loan_from_income + deposit in
   let loan_amount := max_loan_from_income in
   rate_fraction <- interest_rate_annual / of_int 100 ;;
   monthly_interest_rate <- rate_fraction / of_int 12 ;;
   let number_of_payments := (MORTGAGE_TERM_YEARS * 12)%positive in
   monthly_payment <-
     (if monthly_interest_rate >? of_int 0 then
        growth <- (of_int 1 + monthly_interest_rate) ** number_of_payments ;;
        let numerator := loan_amount * (monthly_interest_rate * growth) in
        growth' <- (of_int 1 + monthly_interest_rate) ** number_of_payments ;;
        numerator / (growth' - of_int 1)
      else
        loan_amount / of_int (Z.pos number_of_payments)) ;;
   let total_monthly_outgoings := monthly_payment + monthly_debts in
   gross_monthly_income <- income / of_int 12 ;;
   ratio <- total_monthly_outgoings / gross_monthly_income ;;
   let dti_ratio := ratio * of_int 100 in
   Return (Result.Build income deposit monthly_debts interest_rate_annual
             max_loan_from_income affordable_property_price
             monthly_payment dti_ratio))%py.

(** *** [run_scenario_testing] *)

(** The dictionary literal [scenarios]: three distinct keys, iterated by
    [.items()] in insertion order. *)
Definition scenarios (base_rate deposit : F) : list (string * Params.t F) :=
  [ ("Base Case", Params.Build base_rate deposit);
    ("High Interest Rate (+1.5%)",
       Params.Build (base_rate + lit_1_5)%py deposit);
    ("Lower Deposit (-£10,000)",
       Params.Build base_rate (deposit - of_int 10000)%py) ].

(** The text of the [print] call made for a skipped scenario. *)
Definition skip_message (name : string) : string :=
  newline ++ "Skipping '" ++ name ++ "' scenario: Deposit cannot be negative.".

Definition banner : string := newline ++ "--- Running Scenario Analysis ---".

Section Loop.
(** The calculator the loop calls, and the arguments it passes on. *)
Variable calculator : F -> F -> F -> F -> outcome (Result.t F).
Variables income monthly_debts : F.

(** The [for] loop over [scenarios.items()].  [printed] is what has
    been written to standard output so far, [scenario_results] the
    list being built.  An exception of the calculator leaves the loop
    and the function. *)
Fixpoint scenario_loop (items : list (string * Params.t F))
    (printed : list string) (scenario_results : list (string * Result.t F))
    : list string * outcome (list (string * Result.t F)) :=
  match items with
  | [] => (printed, Return scenario_results)
  | (name, params) :: rest =>
      if (Params.deposit params <? of_int 0)%py then
        scenario_loop rest (printed ++ [skip_message name]) scenario_results
      else
        match calculator income (Params.deposit params) monthly_debts
                (Params.rate params) with
        | Raise e => (printed, Raise e)
        | Return results =>
            scenario_loop rest printed (scenario_results ++ [(name, results)])
        end
  end.
End Loop.

Definition run_scenario_testing_with
    (calculator : F -> F -> F -> F -> outcome (Result.t F))
    (income deposit monthly_debts base_rate : F)
    : list string * outcome (list (string * Result.t F)) :=
  scenario_loop calculator income monthly_debts
    (scenarios base_rate deposit) [banner] [].

Definition run_scenario_testing
    : F -> F -> F -> F -> list string * outcome (list (string * Result.t F)) :=
  run_scenario_testing_with calculate_affordability.
End Program.

(** ** Binary64 arithmetic *)

Module Binary64.
Definition prec : Z := 53.
Definition emax : Z := 1024.

(** A float is a zero, an infinity, a NaN or a finite [(-1)^s * m * 2^e].
    The values the interpreter handles are the [valid_binary] ones; no
    statement below needs that restriction. *)
Definition float : Type := spec_float.

(** [float(n)] for an [int] within the range of the format, and float
    literals with a finite binary expansion: the exact value
    [m * 2^e], rounded to nearest even. *)
Definition of_int (n : Z) : float := binary_normalize prec emax n 0 false.
Definition dyadic (m e : Z) : float := binary_normalize prec emax m e false.

Definition is_zero (x : float) : bool :=
  match x with
  | S754_zero _ => true
  | _ => false
  end.

(** [x ** n] with [n] a positive [int], after [float_pow] of the
    interpreter: the special bases (NaN, infinities, zeros) are
    answered without the C library; a finite base goes to the C
    library's [pow], modelled here by the exact power [m^n * 2^(e*n)]
    rounded to nearest even, and a result that overflows raises
    [OverflowError].  The C library only promises a result within one
    unit in the last place of this value; the general theorems below
    take the result of [**] as it comes and depend on which powers are
    1, finite or overflowing, never on the last bit; the facts at
    concrete inputs evaluate this definition. *)
Definition pow (x : float) (n : positive) : outcome float :=
  match x with
  | S754_nan => Return S754_nan
  | S754_infinity s => Return (S754_infinity (s && Z.odd (Z.pos n)))
  | S754_zero s => Return (S754_zero (s && Z.odd (Z.pos n)))
  | S754_finite s m e =>
      match binary_normalize prec emax
              (cond_Zopp (s && Z.odd (Z.pos n)) (Z.pos (m ^ n)))
              (e * Z.pos n) false with
      | S754_infinity _ => Raise OverflowError
      | y => Return y
      end
  end.

(** Negative, a zero or a NaN: the floats [x] for which [x > 0] is
    false. *)
Definition not_positive (x : float) : bool :=
  match x with
  | S754_zero _ | S754_nan => true
  | S754_infinity s | S754_finite s _ _ => s
  end.

#[global] Instance ops : PyFloat float := {
  of_int := of_int;
  lit_4_5 := dyadic 9 (-1);
  lit_1_5 := dyadic 3 (-1);
  fadd := SFadd prec emax;
  fsub := SFsub prec emax;
  fmul := SFmul prec emax;
  fquot := SFdiv prec emax;
  is_zero := is_zero;
  flt := SFltb;
  fpow := pow
}.
End Binary64.

(** ** Specification vocabulary *)

Section Specification.
Context {F : Type} `{PyFloat F}.

(** The value of the local [monthly_interest_rate]. *)
Definition monthly_rate_of (interest_rate_annual : F) : F :=
  fquot (fquot interest_rate_annual (of_int 100)) (of_int 12).

(** The value of the local [gross_monthly_income]. *)
Definition gross_monthly_income_of (income : F) : F :=
  fquot income (of_int 12).

(** The outcome of the [if]/[else] that binds [monthly_payment]. *)
Definition monthly_payment_of (loan_amount interest_rate_annual : F)
    : outcome F :=
  (let monthly_interest_rate := monthly_rate_of interest_rate_annual in
   if monthly_interest_rate >? of_int 0 then
     growth <- (of_int 1 + monthly_interest_rate) ** 360 ;;
     growth' <- (of_int 1 + monthly_interest_rate) ** 360 ;;
     (loan_amount * (monthly_interest_rate * growth)) / (growth' - of_int 1)
   else
     loan_amount / of_int 360)%py.

(** The record the function builds once the payment is known. *)
Definition result_with (income deposit monthly_debts interest_rate_annual
    monthly_payment : F) : Result.t F :=
  Result.Build income deposit monthly_debts interest_rate_annual
    (income * INCOME_MULTIPLIER)%py
    (income * INCOME_MULTIPLIER + deposit)%py
    monthly_payment
    (fquot (monthly_payment + monthly_debts)
           (gross_monthly_income_of income) * of_int 100)%py.

(** The scenarios the loop computes, and those it skips. *)
Definition negative_deposit (item : string * Params.t F) : bool :=
  (Params.deposit (snd item) <? of_int 0)%py.

Definition computed (items : list (string * Params.t F))
    : list (string * Params.t F) :=
  filter (fun item => negb (negative_deposit item)) items.

Definition skipped (items : list (string * Params.t F))
    : list (string * Params.t F) :=
  filter negative_deposit items.

(** The calls the loop makes, scenario by scenario, without its
    accumulators: the list it returns or the first exception. *)
Fixpoint computed_results
    (calculator : F -> F -> F -> F -> outcome (Result.t F))
    (income monthly_debts : F) (items : list (string * Params.t F))
    : outcome (list (string * Result.t F)) :=
  match items with
  | [] => Return []
  | item :: rest =>
      if negative_deposit item then
        computed_results calculator income monthly_debts rest
      else
        (results <- calculator income (Params.deposit (snd item))
                      monthly_debts (Params.rate (snd item)) ;;
         tail <- computed_results calculator income monthly_debts rest ;;
         Return ((fst item, results) :: tail))%py
  end.
End Specification.

(** What the proofs use of an arithmetic: the [int] divisors of the
    program are not zero, a rate that is zero or negative gives a
    monthly rate that is not positive, and a zero income gives a zero
    monthly income.  [Binary64] satisfies it. *)
Class PyFloatLaws (F : Type) `{PyFloat F} : Prop := {
  int_100_not_zero : is_zero (of_int 100) = false;
  int_12_not_zero : is_zero (of_int 12) = false;
  int_360_not_zero : is_zero (of_int 360) = false;
  zero_rate_not_positive :
    forall x, is_zero x = true -> (monthly_rate_of x >? of_int 0)%py = false;
  negative_rate_not_positive :
    forall x, (x <? of_int 0)%py = true ->
              (monthly_rate_of x >? of_int 0)%py = false;
  zero_income_zero_gross :
    forall x, is_zero x = true -> is_zero (gross_monthly_income_of x) = true
}.

Arguments PyFloatLaws F {_}.

(** ** The report renderer *)

(** The calls [generate_pdf_report] makes on the canvas, in order.  The
    canvas belongs to the PDF library: its calls are recorded, not carried
    out, so what the library does with them - and a file that cannot be
    written - is outside the model. *)
Inductive canvas_op : Type :=
  | NewCanvas (filename : string)
  | SetFont (name : string) (size : Z)
  | DrawCentredString (x y : Binary64.float) (text : string)
  | DrawString (x y : Binary64.float) (text : string)
  | Line (x1 y1 x2 y2 : Binary64.float)
  | ShowPage
  | Save.

(** A drawing computation: its value and the canvas calls it has made,
    or the exception that interrupted it. *)
Definition render (A : Type) : Type := outcome (A * list canvas_op).

Definition rret {A : Type} (a : A) : render A := Return (a, []).

Definition rbind {A B : Type} (c : render A) (k : A -> render B) : render B :=
  match c with
  | Raise e => Raise e
  | Return (a, ops) =>
      match k a with
      | Raise e => Raise e
      | Return (b, ops') => Return (b, (ops ++ ops')%list)
      end
  end.

Definition call (op : canvas_op) : render unit := Return (tt, [op]).

Definition lift {A : Type} (c : outcome A) : render A :=
  match c with
  | Return a => Return (a, [])
  | Raise e => Raise e
  end.

Declare Scope render_scope.
Delimit Scope render_scope with render.
Notation "x <- c ;; k" := (rbind c (fun x => k))
  (at level 61, c at next level, right associativity) : render_scope.
Notation "c ;; k" := (rbind c (fun _ => k))
  (at level 61, right associativity) : render_scope.

(** What the function takes from outside the repository: the constants
    [inch] and [letter] of the PDF library, the two readings of the clock
    already formatted by [strftime], and the three float format
    specifications of the f-strings. *)
Record page_units : Type := {
  inch : Binary64.float;
  letter : Binary64.float * Binary64.float
}.

Record clock : Type := {
  (** [datetime.now().strftime('%Y%m%d_%H%M%S')], read for the file name *)
  file_stamp : string;
  (** [datetime.now().strftime('%d %B %Y, %H:%M')], read for the header *)
  header_stamp : string
}.

Record formats : Type := {
  (** [f"{x:,.2f}"] *)
  money : Binary64.float -> string;
  (** [f"{x:,.0f}"] *)
  whole_money : Binary64.float -> string;
  (** [f"{x:.2f}"] *)
  fixed2 : Binary64.float -> string
}.

(** A float literal with a short decimal expansion: [digits / 10^scale],
    rounded to nearest even (the quotient of two exactly represented
    integers is correctly rounded). *)
Definition decimal (digits : Z) (scale : nat) : Binary64.float :=
  SFdiv Binary64.prec Binary64.emax
    (Binary64.of_int digits) (Binary64.of_int (10 ^ Z.of_nat scale)).

(** The library's values: [inch = 72.0] and
    [letter = (8.5*inch, 11*inch)]. *)
Definition reportlab : page_units := {|
  inch := Binary64.of_int 72;
  letter := ((decimal 85 1 * Binary64.of_int 72)%py,
             (Binary64.of_int 11 * Binary64.of_int 72)%py)
|}.

Section Renderer.
Variable units : page_units.
Variable now : clock.
Variable fmt : formats.

Definition width : Binary64.float := fst (letter units).
Definition height : Binary64.float := snd (letter units).

(** [n*inch] for an [int] [n], and [x*inch] for a float literal. *)
Definition inches (n : Z) : Binary64.float := (Binary64.of_int n * inch units)%py.
Definition dec_inches (digits : Z) (scale : nat) : Binary64.float :=
  (decimal digits scale * inch units)%py.

(** The nested function [check_page_break]. *)
Definition check_page_break (y_pos needed_space : Binary64.float)
    : render Binary64.float :=
  (if (y_pos <? needed_space)%py then
     call ShowPage ;;
     rret (height - inches 1)%py
   else
     rret y_pos)%render.

(** The body of the [for] loop over [scenarios], from the cursor
    [y_pos]; it returns the cursor after the last block. *)
Fixpoint scenario_blocks (scenarios : list (string * Result.t Binary64.float))
    (y_pos : Binary64.float) : render Binary64.float :=
  match scenarios with
  | [] => rret y_pos
  | (name, res) :: rest =>
      (y_pos <- check_page_break y_pos (inches 1) ;;
       call (DrawString (dec_inches 12 1) y_pos ("Scenario: " ++ name)) ;;
       let y_pos := (y_pos - dec_inches 3 1)%py in
       call (DrawString (dec_inches 15 1) y_pos
               ("Property Value: £"
                ++ whole_money fmt (Result.affordable_property_price res))) ;;
       let y_pos := (y_pos - dec_inches 3 1)%py in
       call (DrawString (dec_inches 15 1) y_pos
               ("Monthly Payment: £"
                ++ whole_money fmt (Result.estimated_monthly_payment res))) ;;
       let y_pos := (y_pos - dec_inches 5 1)%py in
       scenario_blocks rest y_pos)%render
  end.

(** [if scenarios:] is false for [None] and for the empty list. *)
Definition truthy {A : Type} (l : option (list A)) : bool :=
  match l with
  | Some (_ :: _) => true
  | _ => false
  end.

Definition filename : string :=
  "Mortgage_Affordability_Report_" ++ file_stamp now ++ ".pdf".

(** The sections of [generate_pdf_report], as its comments divide it;
    each takes the cursor [y_pos] and returns it moved down. *)

Definition header (y_pos : Binary64.float) : render Binary64.float :=
  (call (SetFont "Helvetica-Bold" 18) ;;
   centre <- lift (width / decimal 20 1)%py ;;
   call (DrawCentredString centre y_pos "Mortgage Affordability Report") ;;
   let y_pos := (y_pos - dec_inches 5 1)%py in
   call (SetFont "Helvetica" 10) ;;
   call (DrawString (inches 1) y_pos
           ("Report Generated: " ++ header_stamp now)) ;;
   let y_pos := (y_pos - dec_inches 7 1)%py in
   rret y_pos)%render.

Definition input_summary (data : Result.t Binary64.float)
    (y_pos : Binary64.float) : render Binary64.float :=
  (call (SetFont "Helvetica-Bold" 14) ;;
   call (DrawString (inches 1) y_pos "Financial Summary") ;;
   call (Line (inches 1) (y_pos - dec_inches 5 2)%py
              (width - inches 1)%py (y_pos - dec_inches 5 2)%py) ;;
   let y_pos := (y_pos - dec_inches 5 1)%py in
   call (SetFont "Helvetica" 12) ;;
   call (DrawString (dec_inches 12 1) y_pos
           ("Annual Gross Income: £" ++ money fmt (Result.income data))) ;;
   let y_pos := (y_pos - dec_inches 3 1)%py in
   call (DrawString (dec_inches 12 1) y_pos
           ("Deposit Amount: £" ++ money fmt (Result.deposit data))) ;;
   let y_pos := (y_pos - dec_inches 3 1)%py in
   call (DrawString (dec_inches 12 1) y_pos
           ("Existing Monthly Debts: £"
            ++ money fmt (Result.monthly_debts data))) ;;
   let y_pos := (y_pos - dec_inches 7 1)%py in
   rret y_pos)%render.

Definition affordability_results (data : Result.t Binary64.float)
    (y_pos : Binary64.float) : render Binary64.float :=
  (y_pos <- check_page_break y_pos (inches 1) ;;
   call (SetFont "Helvetica-Bold" 14) ;;
   call (DrawString (inches 1) y_pos "Affordability Analysis") ;;
   call (Line (inches 1) (y_pos - dec_inches 5 2)%py
              (width - inches 1)%py (y_pos - dec_inches 5 2)%py) ;;
   let y_pos := (y_pos - dec_inches 5 1)%py in
   call (SetFont "Helvetica" 12) ;;
   call (DrawString (dec_inches 12 1) y_pos
           ("Assumed Interest Rate: "
            ++ fixed2 fmt (Result.interest_rate data) ++ "%")) ;;
   let y_pos := (y_pos - dec_inches 4 1)%py in
   call (DrawString (dec_inches 12 1) y_pos
           ("Maximum Loan Amount: £"
            ++ money fmt (Result.max_loan_amount data))) ;;
   let y_pos := (y_pos - dec_inches 3 1)%py in
   call (DrawString (dec_inches 12 1) y_pos
           ("Total Affordable Property Value: £"
            ++ money fmt (Result.affordable_property_price data))) ;;
   let y_pos := (y_pos - dec_inches 3 1)%py in
   call (DrawString (dec_inches 12 1) y_pos
           ("Estimated Monthly Payment: £"
            ++ money fmt (Result.estimated_monthly_payment data))) ;;
   let y_pos := (y_pos - dec_inches 3 1)%py in
   call (DrawString (dec_inches 12 1) y_pos
           ("Debt-to-Income (DTI) Ratio: "
            ++ fixed2 fmt (Result.dti_ratio data) ++ "%")) ;;
   let y_pos := (y_pos - dec_inches 7 1)%py in
   rret y_pos)%render.

Definition scenario_analysis
    (scenarios : option (list (string * Result.t Binary64.float)))
    (y_pos : Binary64.float) : render Binary64.float :=
  (if truthy scenarios then
     y_pos <- check_page_break y_pos (inches 2) ;;
     call (SetFont "Helvetica-Bold" 14) ;;
     call (DrawString (inches 1) y_pos "Scenario Analysis") ;;
     call (Line (inches 1) (y_pos - dec_inches 5 2)%py
                (width - inches 1)%py (y_pos - dec_inches 5 2)%py) ;;
     let y_pos := (y_pos - dec_inches 5 1)%py in
     call (SetFont "Helvetica" 12) ;;
     scenario_blocks (match scenarios with Some l => l | None => [] end)
       y_pos
   else rret y_pos)%render.

Definition disclaimer : string :=
  "Disclaimer: This is an estimate for informational purposes only.".

Definition footer_disclaimer (y_pos : Binary64.float) : render unit :=
  (_ <- check_page_break y_pos (inches 1) ;;
   call (SetFont "Helvetica-Oblique" 8) ;;
   centre <- lift (width / decimal 20 1)%py ;;
   call (DrawCentredString centre (dec_inches 75 2) disclaimer) ;;
   call Save)%render.

(** The canvas calls of [generate_pdf_report]. *)
Definition draw_report (data : Result.t Binary64.float)
    (scenarios : option (list (string * Result.t Binary64.float)))
    : render unit :=
  (call (NewCanvas filename) ;;
   y_pos <- header (height - inches 1)%py ;;
   y_pos <- input_summary data y_pos ;;
   y_pos <- affordability_results data y_pos ;;
   y_pos <- scenario_analysis scenarios y_pos ;;
   footer_disclaimer y_pos)%render.

(** [generate_pdf_report]: the canvas calls, then the line it prints. *)
Definition generate_pdf_report (data : Result.t Binary64.float)
    (scenarios : option (list (string * Result.t Binary64.float)))
    : outcome (list canvas_op * list string) :=
  match draw_report data scenarios with
  | Raise e => Raise e
  | Return (_, ops) =>
      Return (ops,
              [newline ++ "✅ Successfully generated report: " ++ filename])
  end.

(** *** [main], after the arguments are parsed *)

Record arguments : Type := {
  arg_income : Binary64.float;
  arg_deposit : Binary64.float;
  arg_debts : Binary64.float;
  arg_rate : Binary64.float;
  arg_scenario : bool
}.

(** What a run of the program leaves: the lines printed, the canvas
    calls made, and how it ended. *)
Record run : Type := {
  printed : list string;
  drawn : list canvas_op;
  ended : outcome unit
}.

Definition main (args : arguments) : run :=
  match calculate_affordability (arg_income args) (arg_deposit args)
          (arg_debts args) (arg_rate args) with
  | Raise e => {| printed := []; drawn := []; ended := Raise e |}
  | Return base_results =>
      let '(out, scenario_results) :=
        if arg_scenario args then
          match run_scenario_testing (arg_income args) (arg_deposit args)
                  (arg_debts args) (arg_rate args) with
          | (out, Return l) => (out, Return (Some l))
          | (out, Raise e) => (out, Raise e)
          end
        else ([], Return None) in
      match scenario_results with
      | Raise e => {| printed := out; drawn := []; ended := Raise e |}
      | Return scenarios =>
          match generate_pdf_report base_results scenarios with
          | Raise e => {| printed := out; drawn := []; ended := Raise e |}
          | Return (ops, lines) =>
              {| printed := (out ++ lines)%list; drawn := ops;
                 ended := Return tt |}
          end
      end
  end.
End Renderer.

(** ** Vocabulary for the renderer *)

Section RendererVocabulary.
Variable units : page_units.
Variable fmt : formats.

(** The cursor [check_page_break] returns. *)
Definition lands (y_pos needed_space : Binary64.float) : Binary64.float :=
  if (y_pos <? needed_space)%py then (height units - inches units 1)%py
  else y_pos.

(** The calls [check_page_break] makes. *)
Definition page_break (y_pos needed_space : Binary64.float) : list canvas_op :=
  if (y_pos <? needed_space)%py then [ShowPage] else [].

(** One pass of the loop from the cursor [y_pos]: where its three lines
    go, the calls it makes, and the cursor it leaves. *)
Definition block_top (y_pos : Binary64.float) : Binary64.float :=
  lands y_pos (inches units 1).

Definition block_middle (y_pos : Binary64.float) : Binary64.float :=
  (block_top y_pos - dec_inches units 3 1)%py.

Definition block_bottom (y_pos : Binary64.float) : Binary64.float :=
  (block_middle y_pos - dec_inches units 3 1)%py.

Definition block_cursor (y_pos : Binary64.float) : Binary64.float :=
  (block_bottom y_pos - dec_inches units 5 1)%py.

Definition block_ops (item : string * Result.t Binary64.float)
    (y_pos : Binary64.float) : list canvas_op :=
  (page_break y_pos (inches units 1) ++
   [ DrawString (dec_inches units 12 1) (block_top y_pos)
       ("Scenario: " ++ fst item);
     DrawString (dec_inches units 15 1) (block_middle y_pos)
       ("Property Value: £"
        ++ whole_money fmt (Result.affordable_property_price (snd item)));
     DrawString (dec_inches units 15 1) (block_bottom y_pos)
       ("Monthly Payment: £"
        ++ whole_money fmt (Result.estimated_monthly_payment (snd item))) ])%list.

Fixpoint blocks_cursor (n : nat) (y_pos : Binary64.float) : Binary64.float :=
  match n with
  | O => y_pos
  | S n => blocks_cursor n (block_cursor y_pos)
  end.

Fixpoint blocks_ops (scenarios : list (string * Result.t Binary64.float))
    (y_pos : Binary64.float) : list canvas_op :=
  match scenarios with
  | [] => []
  | item :: rest =>
      (block_ops item y_pos ++ blocks_ops rest (block_cursor y_pos))%list
  end.
End RendererVocabulary.

(** The strings a trace draws, in order, and its page breaks. *)
Definition text_of (op : canvas_op) : list string :=
  match op with
  | DrawCentredString _ _ text | DrawString _ _ text => [text]
  | _ => []
  end.

Definition texts (ops : list canvas_op) : list string := flat_map text_of ops.

Definition is_show_page (op : canvas_op) : bool :=
  match op with
  | ShowPage => true
  | _ => false
  end.

Definition page_breaks (ops : list canvas_op) : nat :=
  List.length (filter is_show_page ops).

(** The calls made since the last page break: the last page. *)
Fixpoint last_page (ops : list canvas_op) : list canvas_op :=
  match ops with
  | [] => []
  | op :: rest =>
      if existsb is_show_page rest then last_page rest
      else if is_show_page op then rest else op :: rest
  end.

(** The strings of the report: those of the first three sections, and
    those of the scenario section. *)
Definition summary_texts (now : clock) (fmt : formats)
    (data : Result.t Binary64.float) : list string :=
  [ "Mortgage Affordability Report";
    "Report Generated: " ++ header_stamp now;
    "Financial Summary";
    "Annual Gross Income: £" ++ money fmt (Result.income data);
    "Deposit Amount: £" ++ money fmt (Result.deposit data);
    "Existing Monthly Debts: £" ++ money fmt (Result.monthly_debts data);
    "Affordability Analysis";
    "Assumed Interest Rate: "
      ++ fixed2 fmt (Result.interest_rate data) ++ "%";
    "Maximum Loan Amount: £" ++ money fmt (Result.max_loan_amount data);
    "Total Affordable Property Value: £"
      ++ money fmt (Result.affordable_property_price data);
    "Estimated Monthly Payment: £"
      ++ money fmt (Result.estimated_monthly_payment data);
    "Debt-to-Income (DTI) Ratio: "
      ++ fixed2 fmt (Result.dti_ratio data) ++ "%" ].

Definition block_texts (fmt : formats)
    (item : string * Result.t Binary64.float) : list string :=
  [ "Scenario: " ++ fst item;
    "Property Value: £"
      ++ whole_money fmt (Result.affordable_property_price (snd item));
    "Monthly Payment: £"
      ++ whole_money fmt (Result.estimated_monthly_payment (snd item)) ].

Definition scenario_texts (fmt : formats)
    (scenarios : option (list (string * Result.t Binary64.float)))
    : list string :=
  match scenarios with
  | Some (item :: rest) =>
      "Scenario Analysis" :: flat_map (block_texts fmt) (item :: rest)
  | _ => []
  end.

(** A call that draws or lays out, as opposed to opening or saving the
    file. *)
Definition is_drawing (op : canvas_op) : bool :=
  match op with
  | NewCanvas _ | Save => false
  | _ => true
  end.

(** A drawing computation that returns having made drawing calls only,
    and one that returns having made drawing calls and then [last]. *)
Definition draws_only {A : Type} (c : render A) : Prop :=
  exists a ops, c = Return (a, ops) /\ forallb is_drawing ops = true.

Definition draws_then {A : Type} (c : render A) (last : list canvas_op)
    : Prop :=
  exists a body,
    c = Return (a, (body ++ last)%list) /\ forallb is_drawing body = true.

(** ** Vocabulary for the layout on a letter page *)

(** A call whose coordinates lie strictly inside the page. *)
Definition inside (units : page_units) (x y : Binary64.float) : bool :=
  (Binary64.of_int 0 <? x)%py && (x <? width units)%py
  && (Binary64.of_int 0 <? y)%py && (y <? height units)%py.

Definition on_page (units : page_units) (op : canvas_op) : bool :=
  match op with
  | DrawCentredString x y _ | DrawString x y _ => inside units x y
  | Line x1 y1 x2 y2 => inside units x1 y1 && inside units x2 y2
  | _ => true
  end.

(** A call that puts nothing lower than one inch from the bottom. *)
Definition above_footer (units : page_units) (op : canvas_op) : bool :=
  match op with
  | DrawCentredString _ y _ | DrawString _ y _ =>
      negb (y <? inches units 1)%py
  | Line _ y1 _ y2 =>
      negb (y1 <? inches units 1)%py && negb (y2 <? inches units 1)%py
  | _ => true
  end.

(** The cursor after the first three sections when none of them breaks
    the page, and the cursor at which the first scenario block then
    starts. *)
Definition analysis_cursor (units : page_units) : Binary64.float :=
  (height units - inches units 1
   - dec_inches units 5 1 - dec_inches units 7 1
   - dec_inches units 5 1 - dec_inches units 3 1 - dec_inches units 3 1
   - dec_inches units 7 1
   - dec_inches units 5 1 - dec_inches units 4 1 - dec_inches units 3 1
   - dec_inches units 3 1 - dec_inches units 3 1 - dec_inches units 7 1)%py.

Definition first_block_cursor (units : page_units) : Binary64.float :=
  (analysis_cursor units - dec_inches units 5 1)%py.

(** The cursor after [k] scenario blocks. *)
Definition loop_cursor (units : page_units) (k : nat) : Binary64.float :=
  blocks_cursor units k (first_block_cursor units).

(** On a letter page the cursor runs through thirteen values: four on
    the first page, then nine on every later page.  [next_slot] is the
    position after one more block, [low_slot] tells the positions under
    one inch, and [low_slots n k] counts them among the [n+1] positions
    from [k] on. *)
Definition next_slot (k : nat) : nat := if (k =? 12)%nat then 4%nat else S k.

Definition low_slot (k : nat) : bool := ((k =? 3) || (k =? 12))%nat.

Fixpoint low_slots (n k : nat) : nat :=
  ((if low_slot k then 1 else 0)
   + match n with
     | O => 0
     | S n => low_slots n (next_slot k)
     end)%nat.

(** The number of page breaks of a report with [n] scenarios. *)
Definition report_page_breaks (n : nat) : nat :=
  if (n <? 3)%nat then 0%nat else (1 + (n - 3) / 9)%nat.

(** The three last calls of every report, and the calls from the first
    scenario block to the end of the report. *)
Definition footer_ops (units : page_units) : list canvas_op :=
  [ SetFont "Helvetica-Oblique" 8;
    DrawCentredString (fquot (width units) (decimal 20 1))
      (dec_inches units 75 2) disclaimer;
    Save ].

Definition loop_ops (units : page_units) (fmt : formats)
    (scenarios : list (string * Result.t Binary64.float))
    (y_pos : Binary64.float) : list canvas_op :=
  (blocks_ops units fmt scenarios y_pos
   ++ page_break (blocks_cursor units (List.length scenarios) y_pos)
        (inches units 1)
   ++ footer_ops units)%list.

(** Calls that break no page, stay on the page and keep above the
    footer. *)
Definition tidy (units : page_units) (ops : list canvas_op) : bool :=
  negb (existsb is_show_page ops)
  && forallb (on_page units) ops
  && forallb (above_footer units) ops.

(** The scenarios of an optional list. *)
Definition listed {A : Type} (l : option (list A)) : list A :=
  match l with
  | Some l => l
  | None => []
  end.

(** A clock reading and a formatting of numbers, to run the renderer on
    concrete inputs; the formatting shows every number as a dash. *)
Definition sample_clock : clock := {|
  file_stamp := "20250101_120000";
  header_stamp := "01 January 2025, 12:00"
|}.

Definition sample_formats : formats := {|
  money := fun _ => "-";
  whole_money := fun _ => "-";
  fixed2 := fun _ => "-"
|}.

(** Whether [main] passes three scenarios to the report: [--scenario] is
    set and neither the deposit nor the lowered deposit is negative. *)
Definition three_scenarios (args : arguments) : bool :=
  arg_scenario args
  && negb (arg_deposit args <? of_int 0)%py
  && negb (arg_deposit args - of_int 10000 <? of_int 0)%py.

(** ** Floats as real numbers *)

(** Positive, a zero or a NaN: the floats whose sign bit is clear, and
    the NaN. *)
Definition not_negative (x : Binary64.float) : bool :=
  match x with
  | S754_zero _ | S754_nan => true
  | S754_infinity s | S754_finite s _ _ => negb s
  end.

Section RealValues.
Local Open Scope R_scope.

(** [2^e] *)
Definition bpow (e : Z) : R := powerRZ 2 e.

(** The real number a finite float stands for, [(-1)^s * m * 2^e]; an
    infinity or a NaN stands for none and is given 0. *)
Definition B2R (x : Binary64.float) : R :=
  match x with
  | S754_finite s m e => IZR (cond_Zopp s (Z.pos m)) * bpow e
  | _ => 0
  end.

(** A finite float whose mantissa has all its 53 bits: the result of an
    operation that neither overflowed nor underflowed. *)
Definition normal (x : Binary64.float) : bool :=
  match x with
  | S754_finite _ m _ => (2 ^ 52 <=? Z.pos m)%Z
  | _ => false
  end.

(** The number a mantissa with its round and sticky bits stands for, in
    units of the last place: [m], between [m] and [m + 1/2], [m + 1/2],
    or between [m + 1/2] and [m + 1]. *)
Definition stands_for (mrs : shr_record) (x : R) : Prop :=
  let m := IZR (shr_m mrs) in
  match shr_r mrs, shr_s mrs with
  | false, false => x = m
  | false, true => m < x < m + / 2
  | true, false => x = m + / 2
  | true, true => m + / 2 < x < m + 1
  end.

(** The bound proved below on the error of one operation, relative to
    its normal result: a unit and a half of the last place. *)
Definition rounding_error : R := 3 / 2 ^ 53.

(** The tolerance of the amortization identity: [2^-49], the four
    roundings of the payment formula together. *)
Definition identity_tolerance : R := / 2 ^ 49.
End RealValues.

(** ** The state a call can see *)

(** [calculate_affordability] reads two names that are not its arguments:
    [INCOME_MULTIPLIER] (line 18) and [MORTGAGE_TERM_YEARS] (line 25),
    looked up in the module's global namespace each time the line runs.
    It assigns neither, and the dictionary it returns is a new object at
    every call. *)
Module Globals.
Record t : Type := Build {
  INCOME_MULTIPLIER : Binary64.float;
  MORTGAGE_TERM_YEARS : positive
}.
End Globals.

(** The bindings lines 8 and 9 make when the module is loaded. *)
Definition loaded : Globals.t :=
  Globals.Build (Binary64.dyadic 9 (-1)) 30.


(** The body of [calculate_affordability] with its two global names
    looked up in [g]. *)
Definition calculate_affordability_in (g : Globals.t)
    (income deposit monthly_debts interest_rate_annual : Binary64.float)
    : outcome (Result.t Binary64.float) :=
  (let max_loan_from_income := income * Globals.INCOME_MULTIPLIER g in
   let affordable_property_price := max_loan_from_income + deposit in
   let loan_amount := max_loan_from_income in
   rate_fraction <- interest_rate_annual / of_int 100 ;;
   monthly_interest_rate <- rate_fraction / of_int 12 ;;
   let number_of_payments := (Globals.MORTGAGE_TERM_YEARS g * 12)%positive in
   monthly_payment <-
     (if monthly_interest_rate >? of_int 0 then
        growth <- (of_int 1 + monthly_interest_rate) ** number_of_payments ;;
        let numerator := loan_amount * (monthly_interest_rate * growth) in
        growth' <- (of_int 1 + monthly_interest_rate) ** number_of_payments ;;
        numerator / (growth' - of_int 1)
      else
        loan_amount / of_int (Z.pos number_of_payments)) ;;
   let total_monthly_outgoings := monthly_payment + monthly_debts in
   gross_monthly_income <- income / of_int 12 ;;
   ratio <- total_monthly_outgoings / gross_monthly_income ;;
   let dti_ratio := ratio * of_int 100 in
   Return (Result.Build income deposit monthly_debts interest_rate_annual
             max_loan_from_income affordable_property_price
             monthly_payment dti_ratio))%py.





(** * Properties of the calculator, in any arithmetic *)

Section CalculatorFacts.
Context {F : Type} `{PyFloatLaws F}.

Lemma truediv_nonzero (x y : F) :
  is_zero y = false -> truediv x y = Return (fquot x y).
Proof. intros Hy. unfold truediv. now rewrite Hy. Qed.

Lemma truediv_zero (x y : F) :
  is_zero y = true -> truediv x y = Raise ZeroDivisionError.
Proof. intros Hy. unfold truediv. now rewrite Hy. Qed.

(** The function is the payment statement followed by the division by
    the monthly income. *)
Lemma calculate_affordability_steps income deposit monthly_debts rate :
  calculate_affordability income deposit monthly_debts rate =
  bind (monthly_payment_of (income * INCOME_MULTIPLIER)%py rate)
    (fun monthly_payment =>
       if is_zero (gross_monthly_income_of income)
       then Raise ZeroDivisionError
       else Return (result_with income deposit monthly_debts rate
                      monthly_payment)).
Proof.
  unfold calculate_affordability, monthly_payment_of, monthly_rate_of,
    gross_monthly_income_of, result_with.
  rewrite truediv_nonzero by apply int_100_not_zero. cbn [bind].
  rewrite truediv_nonzero by apply int_12_not_zero. cbn [bind].
  change (MORTGAGE_TERM_YEARS * 12)%positive with 360%positive.
  rewrite (truediv_nonzero income) by apply int_12_not_zero.
  destruct (_ >? _)%py; cbn [bind].
  - destruct (_ ** _)%py; cbn [bind]; [|reflexivity].
    destruct (_ / _)%py; cbn [bind]; [|reflexivity].
    unfold truediv. destruct (is_zero (fquot income _)); reflexivity.
  - destruct (_ / _)%py; cbn [bind]; [|reflexivity].
    unfold truediv. destruct (is_zero (fquot income _)); reflexivity.
Qed.

Lemma monthly_payment_not_positive loan_amount rate :
  (monthly_rate_of rate >? of_int 0)%py = false ->
  monthly_payment_of loan_amount rate = Return (fquot loan_amount (of_int 360)).
Proof.
  intros Hr. unfold monthly_payment_of. cbv zeta. rewrite Hr.
  apply truediv_nonzero, int_360_not_zero.
Qed.

Lemma monthly_payment_positive loan_amount rate :
  (monthly_rate_of rate >? of_int 0)%py = true ->
  monthly_payment_of loan_amount rate =
  (growth <- (of_int 1 + monthly_rate_of rate) ** 360 ;;
   (loan_amount * (monthly_rate_of rate * growth)) / (growth - of_int 1))%py.
Proof.
  intros Hr. unfold monthly_payment_of. cbv zeta. rewrite Hr.
  destruct (_ ** _)%py; reflexivity.
Qed.

Lemma calculate_returns income deposit monthly_debts rate monthly_payment :
  monthly_payment_of (income * INCOME_MULTIPLIER)%py rate
    = Return monthly_payment ->
  is_zero (gross_monthly_income_of income) = false ->
  calculate_affordability income deposit monthly_debts rate =
  Return (result_with income deposit monthly_debts rate monthly_payment).
Proof.
  intros Hp Hg. rewrite calculate_affordability_steps, Hp. cbn [bind].
  now rewrite Hg.
Qed.

Lemma calculate_returns_inv income deposit monthly_debts rate res :
  calculate_affordability income deposit monthly_debts rate = Return res ->
  exists monthly_payment,
    monthly_payment_of (income * INCOME_MULTIPLIER)%py rate
      = Return monthly_payment /\
    is_zero (gross_monthly_income_of income) = false /\
    res = result_with income deposit monthly_debts rate monthly_payment.
Proof.
  rewrite calculate_affordability_steps.
  destruct (monthly_payment_of _ _) as [pay|e]; cbn [bind]; [|discriminate].
  destruct (is_zero _); [discriminate|].
  intros [= <-]. now exists pay.
Qed.

Lemma calculate_payment_raises income deposit monthly_debts rate e :
  monthly_payment_of (income * INCOME_MULTIPLIER)%py rate = Raise e ->
  calculate_affordability income deposit monthly_debts rate = Raise e.
Proof. intros Hp. now rewrite calculate_affordability_steps, Hp. Qed.

Lemma calculate_zero_gross income deposit monthly_debts rate :
  is_zero (gross_monthly_income_of income) = true ->
  calculate_affordability income deposit monthly_debts rate =
  match monthly_payment_of (income * INCOME_MULTIPLIER)%py rate with
  | Return _ => Raise ZeroDivisionError
  | Raise e => Raise e
  end.
Proof.
  intros Hg. rewrite calculate_affordability_steps.
  destruct (monthly_payment_of _ _); cbn [bind]; [now rewrite Hg|reflexivity].
Qed.
End CalculatorFacts.

(** * Properties of the scenario loop, for any calculator *)

Section LoopFacts.
Context {F : Type} `{PyFloat F}.
Variable calculator : F -> F -> F -> F -> outcome (Result.t F).
Variables income monthly_debts : F.

Local Abbreviation loop := (scenario_loop calculator income monthly_debts).
Local Abbreviation calls := (computed_results calculator income monthly_debts).

(** The list the loop returns is its accumulator followed by the
    results of the calls, in the order of the items. *)
Lemma scenario_loop_results items : forall printed acc,
  snd (loop items printed acc) = bind (calls items) (fun tail => Return (acc ++ tail)%list).
Proof.
  induction items as [|[name params] rest IH]; intros printed acc.
  - cbn. now rewrite app_nil_r.
  - cbn [scenario_loop computed_results]. unfold negative_deposit. cbn [snd fst].
    destruct (_ <? _)%py.
    + apply IH.
    + destruct (calculator _ _ _ _) as [results|e]; cbn [bind snd]; [|reflexivity].
      rewrite IH. destruct (calls rest); cbn [bind]; [|reflexivity].
      now rewrite <- app_assoc.
Qed.

(** When the loop returns, it has printed one message for each skipped
    scenario, in order. *)
Lemma scenario_loop_printed items : forall printed acc results,
  snd (loop items printed acc) = Return results ->
  fst (loop items printed acc) =
    (printed ++ map (fun item => skip_message (fst item)) (skipped items))%list.
Proof.
  induction items as [|[name params] rest IH]; intros printed acc results.
  - cbn. now rewrite app_nil_r.
  - cbn [scenario_loop skipped filter]. unfold negative_deposit. cbn [snd fst].
    destruct (_ <? _)%py eqn:Hneg.
    + intros Hret. rewrite (IH _ _ _ Hret). cbn [map]. fold (skipped rest).
      now rewrite <- app_assoc.
    + destruct (calculator _ _ _ _) as [r|e]; cbn [snd]; [|discriminate].
      intros Hret. apply (IH _ _ _ Hret).
Qed.

(** The labels of the returned list are those of the computed
    scenarios, in order. *)
Lemma computed_results_labels items : forall results,
  calls items = Return results ->
  map fst results = map fst (computed items).
Proof.
  induction items as [|item rest IH]; intros results.
  - cbn. now intros [= <-].
  - cbn [computed_results computed filter].
    destruct (negative_deposit item); cbn [negb].
    + apply IH.
    + destruct (calculator _ _ _ _) as [r|e]; cbn [bind]; [|discriminate].
      destruct (calls rest) as [tail|e]; cbn [bind]; [|discriminate].
      intros [= <-]. cbn [map fst]. f_equal. now apply IH.
Qed.

(** Each returned entry is the calculator's answer for a scenario of
    the dictionary whose deposit is not negative. *)
Lemma computed_results_sound items : forall results name res,
  calls items = Return results ->
  In (name, res) results ->
  exists params, In (name, params) items /\
    negative_deposit (name, params) = false /\
    calculator income (Params.deposit params) monthly_debts
      (Params.rate params) = Return res.
Proof.
  induction items as [|[n p] rest IH]; intros results name res.
  - cbn. intros [= <-] [].
  - cbn [computed_results].
    destruct (negative_deposit (n, p)) eqn:Hneg.
    + intros Hc Hin. destruct (IH _ _ _ Hc Hin) as (q & Hq & Hr).
      exists q. split; [now right|exact Hr].
    + cbn [fst snd].
      destruct (calculator _ _ _ _) as [r|e] eqn:Hcall; cbn [bind]; [|discriminate].
      destruct (calls rest) as [tail|e] eqn:Hrest; cbn [bind]; [|discriminate].
      intros [= <-] [Hin|Hin].
      * injection Hin as <- <-. exists p. split; [now left|now split].
      * destruct (IH _ _ _ eq_refl Hin) as (q & Hq & Hr).
        exists q. split; [now right|exact Hr].
Qed.
End LoopFacts.

Section LoopIndependence.
Context {F : Type} `{PyFloat F}.

(** The loop never calls the calculator on a negative deposit: two
    calculators that agree on the other deposits give the same run. *)
Lemma scenario_loop_ext
    (calculator calculator' : F -> F -> F -> F -> outcome (Result.t F))
    (income monthly_debts : F) :
  (forall i d m r, (d <? of_int 0)%py = false ->
                   calculator' i d m r = calculator i d m r) ->
  forall items printed acc,
    scenario_loop calculator' income monthly_debts items printed acc =
    scenario_loop calculator income monthly_debts items printed acc.
Proof.
  intros Hagree. induction items as [|[name params] rest IH]; intros printed acc.
  - reflexivity.
  - cbn [scenario_loop]. destruct (_ <? _)%py eqn:Hneg.
    + apply IH.
    + rewrite (Hagree _ _ _ _ Hneg).
      destruct (calculator _ _ _ _); [apply IH|reflexivity].
Qed.

Lemma same_label_same_item (items : list (string * Params.t F)) :
  NoDup (map fst items) ->
  forall a b, In a items -> In b items -> fst a = fst b -> a = b.
Proof.
  induction items as [|x rest IH]; cbn [map]; intros Hnd a b Ha Hb Hab.
  - destruct Ha.
  - inversion Hnd as [|? ? Hx Hrest]; subst.
    destruct Ha as [<-|Ha], Hb as [<-|Hb]; try reflexivity.
    + exfalso. apply Hx. rewrite Hab. now apply in_map.
    + exfalso. apply Hx. rewrite <- Hab. now apply in_map.
    + now apply IH.
Qed.

(** A skipped scenario has no entry among the computed ones. *)
Lemma skipped_not_computed (items : list (string * Params.t F)) item :
  NoDup (map fst items) ->
  In item items -> negative_deposit item = true ->
  ~ In (fst item) (map fst (computed items)).
Proof.
  intros Hnd Hin Hneg Hlab.
  apply in_map_iff in Hlab as (item' & Hfst & Hin').
  apply filter_In in Hin' as [Hin' Hkeep].
  assert (item' = item) by (now apply (@same_label_same_item items Hnd)).
  subst item'. now rewrite Hneg in Hkeep.
Qed.

Lemma scenarios_labels (base_rate deposit : F) :
  map fst (scenarios base_rate deposit) =
  ["Base Case"; "High Interest Rate (+1.5%)"; "Lower Deposit (-£10,000)"].
Proof. reflexivity. Qed.

Lemma scenarios_distinct (base_rate deposit : F) :
  NoDup (map fst (scenarios base_rate deposit)).
Proof.
  rewrite scenarios_labels.
  repeat constructor; cbn [In]; intuition discriminate.
Qed.
End LoopIndependence.

(** * Binary64 satisfies the laws *)

Section Binary64Laws.
Import Binary64.

(** Rounding keeps the sign it is given. *)
Lemma round_negative_not_positive mz ez lz :
  not_positive (binary_round_aux prec emax true mz ez lz) = true.
Proof.
  unfold binary_round_aux.
  destruct (shr_fexp prec emax mz ez lz) as [mrs e1].
  destruct (shr_fexp prec emax _ e1 loc_Exact) as [mrs' e2].
  destruct (shr_m mrs'); [reflexivity| |reflexivity].
  destruct (Z.leb e2 _); reflexivity.
Qed.

Lemma div_not_positive x m e :
  not_positive x = true ->
  not_positive (SFdiv prec emax x (S754_finite false m e)) = true.
Proof.
  destruct x as [s|s| |s mx ex]; cbn [not_positive SFdiv]; intros Hx.
  - reflexivity.
  - now subst s.
  - reflexivity.
  - subst s. destruct (SFdiv_core_binary _ _ _ _ _ _) as [[mz ez] lz].
    apply round_negative_not_positive.
Qed.

Lemma lt_zero_not_positive x :
  SFltb x (S754_zero false) = true -> not_positive x = true.
Proof. destruct x as [s|[|]| |[|] m e]; cbn; congruence. Qed.

Lemma not_positive_not_gt x :
  not_positive x = true -> SFltb (S754_zero false) x = false.
Proof. destruct x as [s|[|]| |[|] m e]; cbn; congruence. Qed.

Lemma is_zero_not_positive x : is_zero x = true -> not_positive x = true.
Proof. destruct x; cbn; congruence. Qed.

Lemma monthly_rate_not_positive (x : float) :
  not_positive x = true ->
  SFltb (S754_zero false)
    (SFdiv prec emax (SFdiv prec emax x (of_int 100)) (of_int 12)) = false.
Proof.
  intros Hx. apply not_positive_not_gt.
  set (c12 := of_int 12). vm_compute in c12. subst c12.
  set (c100 := of_int 100). vm_compute in c100. subst c100.
  now do 2 apply div_not_positive.
Qed.

Lemma zero_gross (x : float) :
  is_zero x = true -> is_zero (SFdiv prec emax x (of_int 12)) = true.
Proof. destruct x; cbn [is_zero]; try discriminate. reflexivity. Qed.
End Binary64Laws.

#[global] Instance binary64_laws : PyFloatLaws Binary64.float.
Proof.
  split.
  - reflexivity.
  - reflexivity.
  - reflexivity.
  - intros x Hx. apply monthly_rate_not_positive, is_zero_not_positive, Hx.
  - intros x Hx. apply monthly_rate_not_positive, lt_zero_not_positive, Hx.
  - exact zero_gross.
Qed.

(** * Corollaries of the laws *)

Section CalculatorCorollaries.
Context {F : Type} `{PyFloatLaws F}.

(** The deposit only enters the property price: a call that returns,
    returns for every other deposit too, with the same payment. *)
Lemma calculate_any_deposit income deposit deposit' monthly_debts rate res :
  calculate_affordability income deposit monthly_debts rate = Return res ->
  calculate_affordability income deposit' monthly_debts rate =
  Return (result_with income deposit' monthly_debts rate
            (Result.estimated_monthly_payment res)).
Proof.
  intros Hret. apply calculate_returns_inv in Hret as (pay & Hpay & Hg & ->).
  now apply calculate_returns.
Qed.

(** With a rate that is not positive the payment is the loan over 360
    and the amortization formula, hence [**], is not evaluated. *)
Lemma calculate_flat income deposit monthly_debts rate :
  (monthly_rate_of rate >? of_int 0)%py = false ->
  is_zero (gross_monthly_income_of income) = false ->
  calculate_affordability income deposit monthly_debts rate =
  Return (result_with income deposit monthly_debts rate
            (fquot (income * INCOME_MULTIPLIER)%py (of_int 360))).
Proof.
  intros Hr Hg. apply calculate_returns; [|exact Hg].
  now apply monthly_payment_not_positive.
Qed.
End CalculatorCorollaries.

(** * The rounding error of the float operations *)

Section FloatError.
Import Binary64.
Local Open Scope R_scope.

Lemma Rabs_le_inv x a : Rabs x <= a -> - a <= x <= a.
Proof. unfold Rabs. destruct (Rcase_abs x); lra. Qed.

(** ** Powers of two *)

Lemma bpow_pos e : 0 < bpow e.
Proof. apply powerRZ_lt. lra. Qed.

Lemma bpow_add a b : bpow (a + b) = bpow a * bpow b.
Proof. apply powerRZ_add. lra. Qed.

Lemma bpow_ge_1 k : (0 <= k)%Z -> 1 <= bpow k.
Proof.
  intros Hk. unfold bpow. destruct k as [|p|p]; [cbn [powerRZ]; lra| |lia].
  cbn [powerRZ]. apply pow_R1_Rle. lra.
Qed.

Lemma bpow_le a b : (a <= b)%Z -> bpow a <= bpow b.
Proof.
  intros H. replace b with (a + (b - a))%Z by lia. rewrite bpow_add.
  pose proof (bpow_pos a). pose proof (bpow_ge_1 (b - a) ltac:(lia)).
  nra.
Qed.

Lemma bpow_pos_double (p : positive) :
  bpow (Z.pos p~0) = bpow (Z.pos p) * bpow (Z.pos p).
Proof. rewrite <- bpow_add. f_equal. lia. Qed.

Lemma bpow_1 : bpow 1 = 2.
Proof. unfold bpow, powerRZ. rewrite Pos2Nat.inj_1. apply pow_1. Qed.

(** ** Right shifts *)

Lemma IZR_xO p : IZR (Z.pos p~0) = 2 * IZR (Z.pos p).
Proof. rewrite <- mult_IZR. reflexivity. Qed.

Lemma IZR_xI p : IZR (Z.pos p~1) = 2 * IZR (Z.pos p) + 1.
Proof. change (Z.pos p~1) with (2 * Z.pos p + 1)%Z.
  rewrite plus_IZR, mult_IZR. reflexivity. Qed.

Lemma shr_1_stands_for mrs x :
  (0 <= shr_m mrs)%Z -> stands_for mrs x ->
  (0 <= shr_m (shr_1 mrs))%Z /\ stands_for (shr_1 mrs) (x / 2).
Proof.
  destruct mrs as [m r s]. unfold stands_for. cbn [shr_m shr_r shr_s].
  intros Hm H.
  destruct m as [|[p|p|]|p]; [| | | |lia]; cbn [shr_1 shr_m shr_r shr_s];
    (split; [lia|]);
    try rewrite (IZR_xO p) in H; try rewrite (IZR_xI p) in H;
    destruct r, s; cbn [orb]; lra.
Qed.

Lemma iter_shr_1_stands_for (n : positive) :
  forall mrs x,
    (0 <= shr_m mrs)%Z -> stands_for mrs x ->
    (0 <= shr_m (SpecFloat.iter_pos shr_1 n mrs))%Z
    /\ stands_for (SpecFloat.iter_pos shr_1 n mrs) (x / bpow (Z.pos n)).
Proof.
  induction n as [n IH|n IH|]; intros mrs x Hm Hx; cbn [SpecFloat.iter_pos].
  - destruct (shr_1_stands_for mrs x Hm Hx) as [Hm1 Hx1].
    destruct (IH _ _ Hm1 Hx1) as [Hm2 Hx2].
    destruct (IH _ _ Hm2 Hx2) as [Hm3 Hx3].
    split; [exact Hm3|].
    replace (x / bpow (Z.pos n~1))
      with (x / 2 / bpow (Z.pos n) / bpow (Z.pos n)); [exact Hx3|].
    change (Z.pos n~1) with (Z.pos n~0 + 1)%Z.
    rewrite bpow_add, bpow_pos_double, bpow_1.
    pose proof (bpow_pos (Z.pos n)). field. lra.
  - destruct (IH _ _ Hm Hx) as [Hm2 Hx2].
    destruct (IH _ _ Hm2 Hx2) as [Hm3 Hx3].
    split; [exact Hm3|].
    replace (x / bpow (Z.pos n~0))
      with (x / bpow (Z.pos n) / bpow (Z.pos n)); [exact Hx3|].
    rewrite bpow_pos_double.
    pose proof (bpow_pos (Z.pos n)). field. lra.
  - rewrite bpow_1. now apply shr_1_stands_for.
Qed.

(** A shift keeps the number the record and exponent stand for. *)
Lemma shr_stands_for mrs e n mrs' e' x :
  shr mrs e n = (mrs', e') ->
  (0 <= shr_m mrs)%Z -> stands_for mrs x ->
  (0 <= shr_m mrs')%Z /\ (e <= e')%Z
  /\ exists x', stands_for mrs' x' /\ x' * bpow e' = x * bpow e.
Proof.
  unfold shr. destruct n as [|p|p]; intros [= <- <-] Hm Hx.
  - split; [exact Hm|]. split; [lia|]. now exists x.
  - destruct (iter_shr_1_stands_for p mrs x Hm Hx) as [Hm' Hx'].
    split; [exact Hm'|]. split; [lia|].
    exists (x / bpow (Z.pos p)). split; [exact Hx'|].
    rewrite bpow_add. pose proof (bpow_pos (Z.pos p)). field. lra.
  - split; [exact Hm|]. split; [lia|]. now exists x.
Qed.

Lemma stands_for_floor mrs x :
  stands_for mrs x -> IZR (shr_m mrs) <= x < IZR (shr_m mrs) + 1.
Proof.
  unfold stands_for. destruct (shr_r mrs), (shr_s mrs); lra.
Qed.

Lemma stands_for_exact m : stands_for (shr_record_of_loc m loc_Exact) (IZR m).
Proof. reflexivity. Qed.

Lemma shr_m_of_loc m l : shr_m (shr_record_of_loc m l) = m.
Proof. destruct l as [|[ | | ]]; reflexivity. Qed.

(** Rounding to nearest even moves by half a unit at most. *)
Lemma round_nearest_even_close mrs x :
  (0 <= shr_m mrs)%Z -> stands_for mrs x ->
  (0 <= round_nearest_even (shr_m mrs) (loc_of_shr_record mrs))%Z
  /\ Rabs (IZR (round_nearest_even (shr_m mrs) (loc_of_shr_record mrs)) - x)
     <= / 2.
Proof.
  destruct mrs as [m r s]. unfold stands_for. cbn [shr_m shr_r shr_s].
  intros Hm Hx.
  destruct r, s; cbn [loc_of_shr_record round_nearest_even];
    try destruct (Z.even m); rewrite ?plus_IZR;
    (split; [lia|]); apply Rabs_le; lra.
Qed.

(** ** Rounding *)

(** The float [binary_round_aux] returns is within a unit and a half of
    its last place of the number it was given. *)
Lemma binary_round_aux_close s mx ex lx x s' m e :
  binary_round_aux prec emax s mx ex lx = S754_finite s' m e ->
  (0 <= mx)%Z -> stands_for (shr_record_of_loc mx lx) x ->
  s' = s /\ Rabs (IZR (Z.pos m) * bpow e - x * bpow ex) <= 3 / 2 * bpow e.
Proof.
  unfold binary_round_aux, shr_fexp. intros Hround Hmx Hx.
  destruct (shr (shr_record_of_loc mx lx) ex _) as [mrs1 e1] eqn:Hshr1.
  destruct (shr_stands_for _ _ _ _ _ x Hshr1)
    as (Hm1 & He1 & x1 & Hx1 & Hv1);
    [now rewrite shr_m_of_loc | exact Hx |].
  destruct (round_nearest_even_close mrs1 x1 Hm1 Hx1) as [Hr Hclose].
  set (m1 := round_nearest_even (shr_m mrs1) (loc_of_shr_record mrs1)) in *.
  destruct (shr (shr_record_of_loc m1 loc_Exact) e1 _) as [mrs2 e2] eqn:Hshr2.
  destruct (shr_stands_for _ _ _ _ _ (IZR m1) Hshr2)
    as (Hm2 & He2 & x2 & Hx2 & Hv2);
    [exact Hr | apply stands_for_exact |].
  apply stands_for_floor in Hx2.
  destruct (shr_m mrs2) as [|p|p] eqn:Hp; try discriminate.
  destruct (e2 <=? emax - prec)%Z; try discriminate.
  injection Hround as <- <- <-. split; [reflexivity|].
  rewrite <- Hv1.
  pose proof (bpow_pos e1). pose proof (bpow_pos e2).
  pose proof (bpow_le e1 e2 He2).
  apply Rabs_le_inv in Hclose.
  replace (IZR (Z.pos p) * bpow e2 - x1 * bpow e1)
    with ((IZR (Z.pos p) - x2) * bpow e2 + (IZR m1 - x1) * bpow e1)
    by nra.
  apply Rabs_le. split; nra.
Qed.

(** ** The error of one operation *)

Lemma normal_finite x :
  normal x = true ->
  exists s m e, x = S754_finite s m e /\ (2 ^ 52 <= Z.pos m)%Z.
Proof.
  destruct x as [| | |s m e]; try discriminate. cbn [normal].
  intros H%Z.leb_le. now exists s, m, e.
Qed.

Lemma Rabs_B2R s m e : Rabs (B2R (S754_finite s m e)) = IZR (Z.pos m) * bpow e.
Proof.
  cbn [B2R]. rewrite Rabs_mult, (Rabs_pos_eq (bpow e))
    by (left; apply bpow_pos).
  f_equal. destruct s; cbn [cond_Zopp].
  - change (Z.neg m) with (- Z.pos m)%Z. rewrite opp_IZR, Rabs_Ropp.
    apply Rabs_pos_eq. apply IZR_le. lia.
  - apply Rabs_pos_eq. apply IZR_le. lia.
Qed.

Lemma B2R_sign s m e :
  B2R (S754_finite s m e) = (if s then -1 else 1) * (IZR (Z.pos m) * bpow e).
Proof.
  cbn [B2R]. destruct s; cbn [cond_Zopp].
  - change (Z.neg m) with (- Z.pos m)%Z. rewrite opp_IZR. ring.
  - ring.
Qed.

(** A unit and a half of the last place of a normal float is at most
    [rounding_error] times the float. *)
Lemma last_place_normal m e :
  (2 ^ 52 <= Z.pos m)%Z ->
  3 / 2 * bpow e <= rounding_error * (IZR (Z.pos m) * bpow e).
Proof.
  intros Hm. apply IZR_le in Hm.
  replace (IZR (2 ^ 52)) with (2 ^ 52) in Hm
    by (change (2 ^ 52)%Z with (2 ^ Z.of_nat 52)%Z; now rewrite <- pow_IZR).
  pose proof (bpow_pos e). unfold rounding_error.
  assert (H1 : 2 ^ 52 * bpow e <= IZR (Z.pos m) * bpow e) by nra.
  lra.
Qed.

Lemma signed_close (s : bool) (a b : R) :
  Rabs ((if s then -1 else 1) * a - (if s then -1 else 1) * b)
  = Rabs (a - b).
Proof.
  destruct s.
  - replace (-1 * a - -1 * b) with (- (a - b)) by ring. apply Rabs_Ropp.
  - f_equal. ring.
Qed.

Lemma xorb_sign (s t : bool) :
  (if xorb s t then -1 else 1)
  = (if s then -1 else 1) * (if t then -1 else 1).
Proof. destruct s, t; cbn [xorb]; ring. Qed.

(** The product. *)
Lemma SFmul_close x y :
  normal (SFmul prec emax x y) = true ->
  Rabs (B2R (SFmul prec emax x y) - B2R x * B2R y)
  <= rounding_error * Rabs (B2R (SFmul prec emax x y)).
Proof.
  intros Hn. destruct (normal_finite _ Hn) as (s & m & e & Hz & Hm).
  rewrite Hz. destruct x as [sx|sx| |sx mx ex], y as [sy|sy| |sy my ey];
    try discriminate Hz.
  cbn [SFmul] in Hz.
  destruct (binary_round_aux_close _ _ _ _
              (IZR (Z.pos (mx * my))) _ _ _ Hz) as [-> Hclose];
    [lia | apply stands_for_exact |].
  rewrite Rabs_B2R, !B2R_sign, xorb_sign.
  replace ((if sx then -1 else 1) * (IZR (Z.pos mx) * bpow ex)
           * ((if sy then -1 else 1) * (IZR (Z.pos my) * bpow ey)))
    with ((if sx then -1 else 1) * (if sy then -1 else 1)
          * (IZR (Z.pos (mx * my)) * bpow (ex + ey)))
    by (rewrite Pos2Z.inj_mul, mult_IZR, bpow_add; ring).
  rewrite <- xorb_sign, signed_close.
  eapply Rle_trans; [exact Hclose|]. now apply last_place_normal.
Qed.

Lemma IZR_pow2 (s : Z) : (0 <= s)%Z -> IZR (2 ^ s) = bpow s.
Proof.
  intros Hs. destruct s as [|p|p]; [reflexivity| |lia].
  unfold bpow, powerRZ. rewrite <- (positive_nat_Z p) at 1.
  now rewrite <- pow_IZR.
Qed.

(** The location of a remainder. *)
Lemma new_location_stands_for (d q r : Z) :
  (0 < d)%Z -> (0 <= r < d)%Z ->
  stands_for (shr_record_of_loc q (new_location d r))
    (IZR q + IZR r / IZR d).
Proof.
  intros Hd Hr.
  assert (HdR : 0 < IZR d) by now apply IZR_lt.
  assert (Hr0 : 0 <= IZR r) by (apply IZR_le; lia).
  assert (Hrd : IZR r < IZR d) by (apply IZR_lt; lia).
  set (t := IZR r / IZR d).
  assert (Ht : t * IZR d = IZR r) by (unfold t; field; lra).
  unfold new_location, new_location_even, new_location_odd.
  destruct (Z.even d) eqn:Heven.
  - destruct (Z.eqb_spec r 0) as [->|Hne].
    + unfold stands_for. cbn [shr_record_of_loc shr_m shr_r shr_s]. nra.
    + assert (0 < IZR r) by (apply IZR_lt; lia).
      destruct (Z.compare_spec (2 * r) d) as [Heq|Hlt|Hgt];
        unfold stands_for; cbn [shr_record_of_loc shr_m shr_r shr_s].
      * apply (f_equal IZR) in Heq. rewrite mult_IZR in Heq. nra.
      * apply IZR_lt in Hlt. rewrite mult_IZR in Hlt. nra.
      * apply IZR_lt in Hgt. rewrite mult_IZR in Hgt. nra.
  - destruct (Z.eqb_spec r 0) as [->|Hne].
    + unfold stands_for. cbn [shr_record_of_loc shr_m shr_r shr_s]. nra.
    + assert (0 < IZR r) by (apply IZR_lt; lia).
      assert (Hodd : (2 * r <> d)%Z).
      { intros <-. rewrite Z.even_mul in Heven. discriminate. }
      destruct (Z.compare_spec (2 * r + 1) d) as [Heq|Hlt|Hgt];
        unfold stands_for; cbn [shr_record_of_loc shr_m shr_r shr_s].
      * assert (Hlt : (2 * r < d)%Z) by lia.
        apply IZR_lt in Hlt. rewrite mult_IZR in Hlt. nra.
      * assert (Hlt' : (2 * r < d)%Z) by lia.
        apply IZR_lt in Hlt'. rewrite mult_IZR in Hlt'. nra.
      * assert (Hgt' : (d < 2 * r)%Z) by lia.
        apply IZR_lt in Hgt'. rewrite mult_IZR in Hgt'. nra.
Qed.

(** The quotient. *)
Lemma SFdiv_close x y :
  normal (SFdiv prec emax x y) = true ->
  B2R y <> 0
  /\ Rabs (B2R (SFdiv prec emax x y) - B2R x / B2R y)
     <= rounding_error * Rabs (B2R (SFdiv prec emax x y)).
Proof.
  intros Hn. destruct (normal_finite _ Hn) as (s & m & e & Hz & Hm).
  rewrite Hz. destruct x as [sx|sx| |sx mx ex], y as [sy|sy| |sy my ey];
    try discriminate Hz.
  cbn [SFdiv] in Hz. unfold SFdiv_core_binary in Hz.
  set (e' := Z.min _ _) in Hz.
  assert (He' : (e' <= ex - ey)%Z) by apply Z.le_min_r.
  set (sh := (ex - ey - e')%Z) in Hz.
  assert (Hsh : (0 <= sh)%Z) by (unfold sh; lia).
  set (m' := match sh with
             | 0%Z => Z.pos mx
             | Z.pos _ => Z.shiftl (Z.pos mx) sh
             | Z.neg _ => 0%Z
             end) in Hz.
  assert (Hm' : m' = (Z.pos mx * 2 ^ sh)%Z).
  { unfold m'. destruct sh as [|p|p]; [lia| |lia].
    now rewrite Z.shiftl_mul_pow2. }
  assert (Hm'0 : (0 <= m')%Z) by (rewrite Hm'; apply Z.mul_nonneg_nonneg; lia).
  pose proof (Z_div_mod m' (Z.pos my) ltac:(lia)) as Hdiv.
  destruct (Z.div_eucl m' (Z.pos my)) as [q r]. destruct Hdiv as [Hqr Hr].
  assert (Hq : (0 <= q)%Z) by nia.
  assert (HmyR : 0 < IZR (Z.pos my)) by (apply IZR_lt; lia).
  assert (HmxR : 0 < IZR (Z.pos mx)) by (apply IZR_lt; lia).
  pose proof (bpow_pos ex). pose proof (bpow_pos ey).
  destruct (binary_round_aux_close _ _ _ _
              (IZR q + IZR r / IZR (Z.pos my)) _ _ _ Hz) as [-> Hclose];
    [exact Hq | apply new_location_stands_for; lia |].
  split.
  { rewrite B2R_sign. destruct sy; nra. }
  rewrite Rabs_B2R, !B2R_sign, xorb_sign.
  replace ((if sx then -1 else 1) * (IZR (Z.pos mx) * bpow ex)
           / ((if sy then -1 else 1) * (IZR (Z.pos my) * bpow ey)))
    with ((if sx then -1 else 1) * (if sy then -1 else 1)
          * ((IZR q + IZR r / IZR (Z.pos my)) * bpow e')).
  - rewrite <- xorb_sign, signed_close.
    eapply Rle_trans; [exact Hclose|]. now apply last_place_normal.
  - assert (Hval : IZR q + IZR r / IZR (Z.pos my)
                   = IZR (Z.pos mx) * bpow sh / IZR (Z.pos my)).
    { rewrite <- (IZR_pow2 sh Hsh), <- mult_IZR, <- Hm', Hqr.
      rewrite plus_IZR, mult_IZR. field. lra. }
    rewrite Hval.
    replace (bpow ex) with (bpow sh * bpow e' * bpow ey)
      by (rewrite <- !bpow_add; f_equal; unfold sh; lia).
    pose proof (bpow_pos sh). pose proof (bpow_pos e').
    destruct sx, sy; field; lra.
Qed.

(** A left shift keeps the number. *)
Lemma iter_xO_value (m d : positive) :
  IZR (Z.pos (Pos.iter xO m d)) = IZR (Z.pos m) * bpow (Z.pos d).
Proof.
  induction d as [|d IH] using Pos.peano_ind.
  - cbn [Pos.iter]. rewrite IZR_xO, bpow_1. ring.
  - rewrite Pos.iter_succ, IZR_xO, IH.
    replace (Z.pos (Pos.succ d)) with (Z.pos d + 1)%Z by lia.
    rewrite bpow_add, bpow_1. ring.
Qed.

Lemma shl_align_value (mx : positive) (ex ex' : Z) :
  IZR (Z.pos (fst (shl_align mx ex ex'))) * bpow (snd (shl_align mx ex ex'))
  = IZR (Z.pos mx) * bpow ex.
Proof.
  unfold shl_align. destruct (ex' - ex)%Z as [|d|d] eqn:Hd; cbn [fst snd];
    try reflexivity.
  rewrite iter_xO_value.
  replace ex with (Z.pos d + ex')%Z by lia. rewrite bpow_add. ring.
Qed.

Lemma shl_align_down (mx : positive) (ex ez : Z) :
  (ez <= ex)%Z ->
  IZR (Z.pos (fst (shl_align mx ex ez))) * bpow ez = IZR (Z.pos mx) * bpow ex.
Proof.
  intros Hle. rewrite <- (shl_align_value mx ex ez). f_equal. f_equal.
  unfold shl_align. destruct (ez - ex)%Z as [|d|d] eqn:Hd; cbn [snd]; lia.
Qed.

Lemma binary_round_close s mx ex s' m e :
  binary_round prec emax s mx ex = S754_finite s' m e ->
  s' = s
  /\ Rabs (IZR (Z.pos m) * bpow e - IZR (Z.pos mx) * bpow ex)
     <= 3 / 2 * bpow e.
Proof.
  unfold binary_round. intros Hround.
  pose proof (shl_align_value mx ex
                (fexp prec emax (Z.pos (digits2_pos mx) + ex))) as Hval.
  destruct (shl_align mx ex _) as [mz ez]. cbn [fst snd] in Hval.
  rewrite <- Hval.
  apply (binary_round_aux_close _ _ _ _ _ _ _ _ Hround);
    [lia | apply stands_for_exact].
Qed.

Lemma binary_normalize_close (M : Z) (ez : Z) s m e :
  binary_normalize prec emax M ez false = S754_finite s m e ->
  Rabs (B2R (S754_finite s m e) - IZR M * bpow ez) <= 3 / 2 * bpow e.
Proof.
  unfold binary_normalize. destruct M as [|p|p]; [discriminate| |];
    intros Hround;
    destruct (binary_round_close _ _ _ _ _ _ Hround) as [-> Hclose].
  - rewrite B2R_sign. now rewrite Rmult_1_l.
  - rewrite B2R_sign. change (Z.neg p) with (- Z.pos p)%Z. rewrite opp_IZR.
    replace (-1 * (IZR (Z.pos m) * bpow e) - - IZR (Z.pos p) * bpow ez)
      with (- (IZR (Z.pos m) * bpow e - IZR (Z.pos p) * bpow ez)) by ring.
    now rewrite Rabs_Ropp.
Qed.

Lemma cond_Zopp_sign (s : bool) (z : Z) :
  IZR (cond_Zopp s z) = (if s then -1 else 1) * IZR z.
Proof. destruct s; cbn [cond_Zopp]; [rewrite opp_IZR|]; ring. Qed.

(** The difference. *)
Lemma SFsub_close x y :
  normal (SFsub prec emax x y) = true ->
  Rabs (B2R (SFsub prec emax x y) - (B2R x - B2R y))
  <= rounding_error * Rabs (B2R (SFsub prec emax x y)).
Proof.
  intros Hn.
  assert (Hexact : forall z c,
            normal z = true -> B2R z = c ->
            Rabs (B2R z - c) <= rounding_error * Rabs (B2R z)).
  { intros z c _ <-. replace (B2R z - B2R z) with 0 by ring.
    rewrite Rabs_R0. apply Rmult_le_pos; [|apply Rabs_pos].
    unfold rounding_error. lra. }
  destruct x as [sx|sx| |sx mx ex], y as [sy|sy| |sy my ey];
    cbn [SFsub] in *; try discriminate Hn;
    try (destruct sx, sy; discriminate Hn).
  - apply Hexact; [exact Hn|]. rewrite !B2R_sign. cbn [B2R].
    destruct sy; cbn [negb]; ring.
  - apply Hexact; [exact Hn|]. cbn [B2R]. ring.
  - destruct (normal_finite _ Hn) as (s & m & e & Hz & Hm). rewrite Hz.
    pose proof (binary_normalize_close _ _ _ _ _ Hz) as Hclose.
    rewrite minus_IZR, !cond_Zopp_sign in Hclose.
    rewrite Rmult_minus_distr_r, !Rmult_assoc in Hclose.
    rewrite (shl_align_down mx ex _ (Z.le_min_l ex ey)) in Hclose.
    rewrite (shl_align_down my ey _ (Z.le_min_r ex ey)) in Hclose.
    rewrite Rabs_B2R, (B2R_sign sx mx ex), (B2R_sign sy my ey).
    eapply Rle_trans; [exact Hclose|]. now apply last_place_normal.
Qed.

(** ** The identity *)

Lemma Rabs_scaled (k x y z : R) :
  0 <= k -> Rabs (x - y) <= k * Rabs x ->
  Rabs (z * (x - y)) <= k * Rabs (z * x).
Proof.
  intros Hk H. rewrite !Rabs_mult. pose proof (Rabs_pos z). nra.
Qed.

(** Four roundings apart: if [t], [n], [p] and [d] are [a * b], [c * t],
    [n / d] and [b - 1] up to [rounding_error], then [p * (b - 1)] is
    [c * a * b] up to [identity_tolerance]. *)
Lemma identity_from_roundings (a b c t n p d : R) :
  Rabs (t - a * b) <= rounding_error * Rabs t ->
  Rabs (n - c * t) <= rounding_error * Rabs n ->
  d <> 0 ->
  Rabs (p - n / d) <= rounding_error * Rabs p ->
  Rabs (d - (b - 1)) <= rounding_error * Rabs d ->
  Rabs (p * (b - 1) - c * a * b) <= identity_tolerance * Rabs (c * a * b).
Proof.
  intros Ht Hn Hd Hp Hs.
  assert (He : 0 <= rounding_error) by (unfold rounding_error; lra).
  assert (H1 : Rabs (p * (d - (b - 1))) <= rounding_error * Rabs (p * d))
    by now apply Rabs_scaled.
  assert (H2 : Rabs (p * d - n) <= rounding_error * Rabs (p * d)).
  { replace (p * d - n) with (d * (p - n / d)) by (field; exact Hd).
    rewrite (Rmult_comm p d). now apply Rabs_scaled. }
  assert (H3 : Rabs (c * (t - a * b)) <= rounding_error * Rabs (c * t))
    by now apply Rabs_scaled.
  set (x := p * (b - 1) - c * a * b).
  assert (Hx : x = - (p * (d - (b - 1))) + (p * d - n) + (n - c * t)
                   + c * (t - a * b)) by (unfold x; ring).
  assert (H4 : Rabs x <= Rabs (p * (d - (b - 1))) + Rabs (p * d - n)
                         + Rabs (n - c * t) + Rabs (c * (t - a * b))).
  { rewrite Hx.
    eapply Rle_trans; [apply Rabs_triang|]. apply Rplus_le_compat_r.
    eapply Rle_trans; [apply Rabs_triang|]. apply Rplus_le_compat_r.
    eapply Rle_trans; [apply Rabs_triang|]. rewrite Rabs_Ropp. lra. }
  assert (H6 : Rabs (p * d) <= Rabs n + Rabs (p * d - n)).
  { replace (p * d) with (n + (p * d - n)) at 1 by ring. apply Rabs_triang. }
  assert (H8 : Rabs (c * t) <= Rabs (c * a * b) + Rabs (c * (t - a * b))).
  { replace (c * t) with (c * a * b + c * (t - a * b)) at 1 by ring.
    apply Rabs_triang. }
  assert (H9 : Rabs n <= Rabs (c * t) + Rabs (n - c * t)).
  { replace n with (c * t + (n - c * t)) at 1 by ring. apply Rabs_triang. }
  pose proof (Rabs_pos (p * d)). pose proof (Rabs_pos n).
  pose proof (Rabs_pos (c * t)). pose proof (Rabs_pos (c * a * b)).
  unfold identity_tolerance, rounding_error in *. lra.
Qed.
End FloatError.

(** * The amortization identity on binary64 *)

Section AmortizationIdentity.
Import Binary64.
Local Open Scope R_scope.

Lemma B2R_one : B2R (Binary64.of_int 1) = 1.
Proof.
  change (Binary64.of_int 1) with (S754_finite false (2 ^ 52) (-52)).
  unfold B2R. cbn [cond_Zopp].
  change (Z.pos (2 ^ 52)) with (2 ^ 52)%Z. rewrite IZR_pow2 by lia.
  rewrite <- bpow_add. reflexivity.
Qed.

Lemma B2R_finite_not_zero s m e : B2R (S754_finite s m e) <> 0.
Proof.
  intros Hz. pose proof (Rabs_B2R s m e) as Habs. rewrite Hz, Rabs_R0 in Habs.
  pose proof (bpow_pos e). assert (0 < IZR (Z.pos m)) by (apply IZR_lt; lia).
  nra.
Qed.

(** Rounding keeps a clear sign bit. *)
Lemma round_not_negative mz ez lz :
  not_negative (binary_round_aux prec emax false mz ez lz) = true.
Proof.
  unfold binary_round_aux.
  destruct (shr_fexp prec emax mz ez lz) as [mrs e1].
  destruct (shr_fexp prec emax _ e1 loc_Exact) as [mrs' e2].
  destruct (shr_m mrs'); [reflexivity| |reflexivity].
  destruct (Z.leb e2 _); reflexivity.
Qed.

Lemma div_not_negative x m e :
  not_negative x = true ->
  not_negative (SFdiv prec emax x (S754_finite false m e)) = true.
Proof.
  destruct x as [s|s| |s mx ex]; cbn [not_negative SFdiv]; intros Hx.
  - reflexivity.
  - now destruct s.
  - reflexivity.
  - destruct s; [discriminate Hx|].
    destruct (SFdiv_core_binary _ _ _ _ _ _) as [[mz ez] lz].
    apply round_not_negative.
Qed.

Lemma gt_zero_not_negative x :
  SFltb (S754_zero false) x = true -> not_negative x = true.
Proof. destruct x as [s|[|]| |[|] m e]; cbn; congruence. Qed.

Lemma monthly_rate_not_negative (x : float) :
  SFltb (S754_zero false) x = true ->
  not_negative (monthly_rate_of x) = true.
Proof.
  intros Hx. unfold monthly_rate_of. cbn [fquot of_int ops].
  set (c12 := Binary64.of_int 12). vm_compute in c12. subst c12.
  set (c100 := Binary64.of_int 100). vm_compute in c100. subst c100.
  now do 2 apply div_not_negative; apply gt_zero_not_negative.
Qed.

(** A positive annual rate whose monthly rate takes part in a normal
    product gives a positive monthly rate: the amortization branch. *)
Lemma monthly_rate_positive (rate growth : float) :
  (rate >? of_int 0)%py = true ->
  normal (monthly_rate_of rate * growth)%py = true ->
  (monthly_rate_of rate >? of_int 0)%py = true.
Proof.
  intros Hrate Hnormal.
  pose proof (monthly_rate_not_negative rate Hrate) as Hsign.
  destruct (monthly_rate_of rate) as [s|s| |s m e].
  - destruct growth; discriminate Hnormal.
  - destruct growth as [| | |]; try discriminate Hnormal.
  - discriminate Hnormal.
  - destruct s; [discriminate Hsign|reflexivity].
Qed.
Lemma bpow_neg (p : positive) : bpow (Z.neg p) = / IZR (2 ^ Z.pos p).
Proof.
  rewrite IZR_pow2 by lia. unfold bpow.
  change (Z.neg p) with (- Z.pos p)%Z. rewrite powerRZ_neg'. reflexivity.
Qed.

(** The real power [(1 + 3/2^54)^360] is little more than
    [1 + 360 * 3/2^54]. *)
Lemma small_growth :
  1 <= (1 + 3 / 2 ^ 54) ^ 360 <= 1 + 1084 / 2 ^ 54.
Proof.
  split; [apply pow_R1_Rle; lra|].
  replace (1 + 3 / 2 ^ 54) with (IZR (2 ^ 54 + 3) / IZR (2 ^ 54)).
  2:{ rewrite plus_IZR, (IZR_pow2 54) by lia. unfold bpow.
      change (powerRZ 2 54) with (2 ^ 54). field. }
  assert (Hpos : 0 < IZR (2 ^ 54) ^ 360).
  { apply pow_lt. apply IZR_lt. reflexivity. }
  unfold Rdiv at 1. rewrite Rpow_mult_distr, pow_inv.
  apply Rmult_le_reg_r with (IZR (2 ^ 54) ^ 360); [exact Hpos|].
  rewrite Rmult_assoc, Rinv_l, Rmult_1_r by lra.
  replace (1 + 1084 / 2 ^ 54) with (IZR (2 ^ 54 + 1084) / IZR (2 ^ 54)).
  2:{ rewrite plus_IZR, (IZR_pow2 54) by lia. unfold bpow.
      change (powerRZ 2 54) with (2 ^ 54). field. }
  apply Rmult_le_reg_r with (IZR (2 ^ 54)); [apply IZR_lt; reflexivity|].
  unfold Rdiv.
  replace (IZR (2 ^ 54 + 1084) * / IZR (2 ^ 54) * IZR (2 ^ 54) ^ 360
           * IZR (2 ^ 54))
    with (IZR (2 ^ 54 + 1084) * IZR (2 ^ 54) ^ 360).
  2:{ field. apply eq_IZR_contrapositive. discriminate. }
  rewrite !pow_IZR, <- !mult_IZR. apply IZR_le.
  apply Z.leb_le. vm_compute. reflexivity.
Qed.
End AmortizationIdentity.

(** C1 (amended).  On binary64, let a call of [calculate_affordability]
    with a positive annual rate return.  Write [r] for the monthly rate
    the call computes, [(rate / 100) / 12], [loanAmount] for
    [income * 4.5] and [growth] for the float its [(1 + r) ** 360]
    evaluates to, and let the intermediate results [r * growth],
    [loanAmount * (r * growth)] and [growth - 1] and the payment be
    normal: none overflowed or underflowed.  Then the two sides of the
    amortization identity
    [payment * (growth - 1) = loanAmount * r * growth], taken as real
    numbers, differ by at most [2^-49] of the right-hand side. *)
Theorem amortization_identity_within_tolerance :
  forall (income deposit monthly_debts rate : Binary64.float)
         (res : Result.t Binary64.float) (growth : Binary64.float),
    (rate >? of_int 0)%py = true ->
    calculate_affordability income deposit monthly_debts rate = Return res ->
    let r := monthly_rate_of rate in
    let loanAmount := (income * INCOME_MULTIPLIER)%py in
    let payment := Result.estimated_monthly_payment res in
    ((of_int 1 + r) ** 360)%py = Return growth ->
    normal (r * growth)%py = true ->
    normal (loanAmount * (r * growth))%py = true ->
    normal (growth - of_int 1)%py = true ->
    normal payment = true ->
    (Rabs (B2R payment * (B2R growth - 1)
           - B2R loanAmount * B2R r * B2R growth)
     <= identity_tolerance * Rabs (B2R loanAmount * B2R r * B2R growth))%R.
Proof.
  intros income deposit monthly_debts rate res growth Hrate Hret
    r loanAmount payment Hpow Ht Hn Hd Hp.
  apply calculate_returns_inv in Hret as (pay & Hpay & _ & ->).
  assert (Hr : (r >? of_int 0)%py = true)
    by (apply monthly_rate_positive with growth; assumption).
  rewrite (monthly_payment_positive _ _ Hr) in Hpay.
  fold r in Hpay. rewrite Hpow in Hpay. cbn [bind] in Hpay.
  unfold truediv in Hpay.
  destruct (is_zero (growth - of_int 1)%py); [discriminate Hpay|].
  injection Hpay as <-.
  change payment
    with (fquot (loanAmount * (r * growth))%py (growth - of_int 1)%py)
    in Hp |- *.
  clearbody payment.
  pose proof (SFmul_close r growth Ht) as Et.
  pose proof (SFmul_close loanAmount (r * growth)%py Hn) as En.
  destruct (SFdiv_close (loanAmount * (r * growth))%py
              (growth - of_int 1)%py Hp) as [Hd0 Ep].
  pose proof (SFsub_close growth (of_int 1) Hd) as Ed.
  change (B2R (of_int 1)) with (B2R (Binary64.of_int 1)) in Ed.
  rewrite B2R_one in Ed.
  exact (identity_from_roundings _ _ _ _ _ _ _ Et En Hd0 Ep Ed).
Qed.

(** C1 at an income of 50000 and a rate of 4.6875. *)
Lemma amortization_identity_within_tolerance_witness :
  exists (res : Result.t Binary64.float) (growth : Binary64.float),
    let income := Binary64.of_int 50000 in
    let rate := Binary64.dyadic 75 (-4) in
    let r := monthly_rate_of rate in
    let loanAmount := (income * INCOME_MULTIPLIER)%py in
    let payment := Result.estimated_monthly_payment res in
    (rate >? of_int 0)%py = true /\
    calculate_affordability income (Binary64.of_int 20000)
      (Binary64.of_int 300) rate = Return res /\
    ((of_int 1 + r) ** 360)%py = Return growth /\
    normal (r * growth)%py = true /\
    normal (loanAmount * (r * growth))%py = true /\
    normal (growth - of_int 1)%py = true /\
    normal payment = true /\
    (Rabs (B2R payment * (B2R growth - 1)
           - B2R loanAmount * B2R r * B2R growth)
     <= identity_tolerance * Rabs (B2R loanAmount * B2R r * B2R growth))%R.
Proof.
  eexists. eexists. cbv zeta.
  split; [vm_compute; reflexivity|].
  split; [vm_compute; reflexivity|].
  split; [vm_compute; reflexivity|].
  split; [vm_compute; reflexivity|].
  split; [vm_compute; reflexivity|].
  split; [vm_compute; reflexivity|].
  split; [vm_compute; reflexivity|].
  apply (amortization_identity_within_tolerance (Binary64.of_int 50000)
           (Binary64.of_int 20000) (Binary64.of_int 300)
           (Binary64.dyadic 75 (-4))); vm_compute; reflexivity.
Defined.

(** C1, without its conditions.  For the rate 8400 the call raises: the
    power [(1+r)^360 = 8^360] overflows.  For the rate [2^-60] it raises
    too: [1 + r] rounds to 1, the power is 1 and the divisor
    [growth - 1] is zero.  For the income 50000 and the rate 4.6875 it
    returns a payment for which the two sides of the identity, computed
    in floats, differ in the last place: the identity holds within a
    tolerance, not exactly.  For the income [2^-1070] and the rate 4.6875
    it returns the payment 0, the numerator having underflowed, and the
    two sides differ by the whole right-hand side.  For the income 50000
    and the rate [225 * 2^-50], whose monthly rate [r = rate / 1200] is
    [3/2^54] exactly, it returns a normal payment, 468.75 and a little,
    that misses the identity taken with the real power [(1+r)^360] by
    more than a fifth of the right-hand side: [1 + r] was rounded to
    [1 + 2^-52] before the power was taken. *)
Lemma amortization_identity_not_exact :
  ((Binary64.of_int 8400 >? of_int 0)%py = true /\
   calculate_affordability (Binary64.of_int 60000) (Binary64.of_int 20000)
     (Binary64.of_int 300) (Binary64.of_int 8400) = Raise OverflowError) /\
  ((Binary64.dyadic 1 (-60) >? of_int 0)%py = true /\
   calculate_affordability (Binary64.of_int 60000) (Binary64.of_int 20000)
     (Binary64.of_int 300) (Binary64.dyadic 1 (-60))
   = Raise ZeroDivisionError) /\
  (exists res growth,
     let rate := Binary64.dyadic 75 (-4) in
     let r := monthly_rate_of rate in
     let loanAmount := (Binary64.of_int 50000 * INCOME_MULTIPLIER)%py in
     (rate >? of_int 0)%py = true /\
     calculate_affordability (Binary64.of_int 50000) (Binary64.of_int 20000)
       (Binary64.of_int 300) rate = Return res /\
     ((of_int 1 + r) ** 360)%py = Return growth /\
     (Result.estimated_monthly_payment res * (growth - of_int 1))%py
       <> (loanAmount * r * growth)%py) /\
  (exists res growth,
     let rate := Binary64.dyadic 75 (-4) in
     let r := monthly_rate_of rate in
     let loanAmount := (Binary64.dyadic 1 (-1070) * INCOME_MULTIPLIER)%py in
     let payment := Result.estimated_monthly_payment res in
     (rate >? of_int 0)%py = true /\
     calculate_affordability (Binary64.dyadic 1 (-1070))
       (Binary64.of_int 20000) (Binary64.of_int 300) rate = Return res /\
     ((of_int 1 + r) ** 360)%py = Return growth /\
     ~ (Rabs (B2R payment * (B2R growth - 1)
              - B2R loanAmount * B2R r * B2R growth)
        <= identity_tolerance
           * Rabs (B2R loanAmount * B2R r * B2R growth))%R) /\
  (exists res : Result.t Binary64.float,
     let rate := Binary64.dyadic 225 (-50) in
     let loanAmount := (Binary64.of_int 50000 * INCOME_MULTIPLIER)%py in
     let payment := Result.estimated_monthly_payment res in
     (rate >? of_int 0)%py = true /\
     calculate_affordability (Binary64.of_int 50000) (Binary64.of_int 20000)
       (Binary64.of_int 300) rate = Return res /\
     normal payment = true /\
     let r := (B2R rate / 1200)%R in
     ~ (Rabs (B2R payment * ((1 + r) ^ 360 - 1)
              - B2R loanAmount * r * (1 + r) ^ 360)
        <= / 5 * Rabs (B2R loanAmount * r * (1 + r) ^ 360))%R).
Proof.
  split; [|split; [|split; [|split]]].
  - split; vm_compute; reflexivity.
  - split; vm_compute; reflexivity.
  - eexists. eexists. split; [vm_compute; reflexivity|].
    split; [vm_compute; reflexivity|].
    split; [vm_compute; reflexivity|].
    vm_compute. discriminate.
  - eexists. eexists. cbv zeta. split; [vm_compute; reflexivity|].
    split; [vm_compute; reflexivity|].
    split; [vm_compute; reflexivity|].
    cbn [Result.estimated_monthly_payment].
    set (loanAmount := (_ * INCOME_MULTIPLIER)%py). vm_compute in loanAmount.
    set (r := monthly_rate_of _). vm_compute in r.
    subst loanAmount r.
    match goal with
    | |- ~ (_ <= _ * Rabs ?x)%R => set (rhs := x)
    end.
    assert (Hrhs : rhs <> 0%R).
    { unfold rhs.
      apply Rmult_integral_contrapositive_currified;
        [apply Rmult_integral_contrapositive_currified|];
        apply B2R_finite_not_zero. }
    replace (B2R (S754_zero false)) with 0%R by reflexivity.
    replace (0 * _ - rhs)%R with (- rhs)%R by ring.
    rewrite Rabs_Ropp. apply Rabs_pos_lt in Hrhs.
    unfold identity_tolerance. lra.
  - eexists. cbv zeta. split; [vm_compute; reflexivity|].
    split; [vm_compute; reflexivity|].
    split; [vm_compute; reflexivity|].
    cbn [Result.estimated_monthly_payment].
    set (loanAmount := (_ * INCOME_MULTIPLIER)%py). vm_compute in loanAmount.
    set (rate := Binary64.dyadic 225 (-50)). vm_compute in rate.
    subst loanAmount rate. unfold B2R. cbn [cond_Zopp]. rewrite !bpow_neg.
    repeat match goal with
    | |- context [IZR (2 ^ Z.pos ?p)] =>
        let v := eval vm_compute in (2 ^ Z.pos p)%Z in
        change (2 ^ Z.pos p)%Z with v
    end.
    match goal with
    | |- context [((1 + ?x) ^ 360)%R] =>
        replace x with (3 / 2 ^ 54)%R by lra
    end.
    destruct small_growth as [Hlow Hhigh].
    set (G := ((1 + 3 / 2 ^ 54) ^ 360)%R) in *.
    intros H. rewrite (Rabs_right (_ * _ * G)%R) in H by nra.
    apply Rabs_le_inv in H. lra.
Qed.

(** C2 (amended).  For every input with an annual rate equal to zero and
    an income whose twelfth is not zero, [calculate_affordability]
    returns, with [estimated_monthly_payment] equal to [loanAmount / 360]
    where [loanAmount = income * 4.5]. *)
Theorem zero_rate_payment :
  forall income deposit monthly_debts rate : Binary64.float,
    is_zero rate = true ->
    is_zero (gross_monthly_income_of income) = false ->
    exists res,
      calculate_affordability income deposit monthly_debts rate = Return res /\
      Result.estimated_monthly_payment res
        = fquot (income * INCOME_MULTIPLIER)%py (of_int 360).
Proof.
  intros income deposit monthly_debts rate Hrate Hgross.
  eexists. split.
  - apply calculate_flat; [|exact Hgross].
    now apply zero_rate_not_positive.
  - reflexivity.
Qed.

Lemma zero_rate_payment_witness :
  is_zero (Binary64.of_int 0) = true /\
  is_zero (gross_monthly_income_of (Binary64.of_int 60000)) = false /\
  exists res,
    calculate_affordability (Binary64.of_int 60000) (Binary64.of_int 20000) (Binary64.of_int 300) (Binary64.of_int 0) = Return res /\
    Result.estimated_monthly_payment res
      = fquot (Binary64.of_int 60000 * INCOME_MULTIPLIER)%py (Binary64.of_int 360).
Proof.
  assert (Hrate : is_zero (Binary64.of_int 0) = true) by reflexivity.
  assert (Hgross : is_zero (gross_monthly_income_of (Binary64.of_int 60000)) = false)
    by reflexivity.
  split; [exact Hrate|]. split; [exact Hgross|].
  exact (zero_rate_payment (Binary64.of_int 60000) (Binary64.of_int 20000)
           (Binary64.of_int 300) (Binary64.of_int 0) Hrate Hgross).
Defined.

(** C2, at a zero income: the division by the monthly income raises, and
    no payment is returned. *)
Lemma zero_rate_at_zero_income :
  is_zero (Binary64.of_int 0) = true /\
  calculate_affordability (Binary64.of_int 0) (Binary64.of_int 20000) (Binary64.of_int 300) (Binary64.of_int 0)
    = Raise ZeroDivisionError /\
  ~ (exists res,
       calculate_affordability (Binary64.of_int 0) (Binary64.of_int 20000) (Binary64.of_int 300) (Binary64.of_int 0) = Return res /\
       Result.estimated_monthly_payment res
         = fquot (Binary64.of_int 0 * INCOME_MULTIPLIER)%py (Binary64.of_int 360)).
Proof.
  assert (Hraise : calculate_affordability (Binary64.of_int 0)
            (Binary64.of_int 20000) (Binary64.of_int 300) (Binary64.of_int 0)
          = Raise ZeroDivisionError) by (vm_compute; reflexivity).
  split; [reflexivity|]. split; [exact Hraise|].
  intros (res & Hret & _). rewrite Hraise in Hret. discriminate.
Qed.

(** C3 (amended).  For every income > 0 and every deposit, when the
    payment computation succeeds and the twelfth of the income is not
    zero, [calculate_affordability] returns, with [max_loan_amount] equal
    to [income * 4.5] exactly and [affordable_property_price] equal to
    [max_loan_amount + deposit]. *)
Theorem loan_and_property_price :
  forall income deposit monthly_debts rate monthly_payment : Binary64.float,
    (of_int 0 <? income)%py = true ->
    monthly_payment_of (income * INCOME_MULTIPLIER)%py rate
      = Return monthly_payment ->
    is_zero (gross_monthly_income_of income) = false ->
    exists res,
      calculate_affordability income deposit monthly_debts rate = Return res /\
      Result.max_loan_amount res = (income * INCOME_MULTIPLIER)%py /\
      Result.affordable_property_price res
        = (Result.max_loan_amount res + deposit)%py.
Proof.
  intros income deposit monthly_debts rate monthly_payment _ Hpay Hgross.
  eexists. split.
  - apply calculate_returns; [exact Hpay|exact Hgross].
  - split; reflexivity.
Qed.

Lemma loan_and_property_price_witness :
  exists monthly_payment,
    (of_int 0 <? Binary64.of_int 60000)%py = true /\
    monthly_payment_of (Binary64.of_int 60000 * INCOME_MULTIPLIER)%py
      (Binary64.dyadic 75 (-4)) = Return monthly_payment /\
    is_zero (gross_monthly_income_of (Binary64.of_int 60000)) = false /\
    exists res,
      calculate_affordability (Binary64.of_int 60000) (Binary64.of_int 20000)
        (Binary64.of_int 300) (Binary64.dyadic 75 (-4)) = Return res /\
      Result.max_loan_amount res = (Binary64.of_int 60000 * INCOME_MULTIPLIER)%py /\
      Result.affordable_property_price res
        = (Result.max_loan_amount res + Binary64.of_int 20000)%py.
Proof.
  eexists.
  assert (Hincome : (of_int 0 <? Binary64.of_int 60000)%py = true) by reflexivity.
  assert (Hgross : is_zero (gross_monthly_income_of (Binary64.of_int 60000)) = false)
    by reflexivity.
  split; [exact Hincome|].
  split; [vm_compute; reflexivity|].
  split; [exact Hgross|].
  refine (loan_and_property_price (Binary64.of_int 60000) (Binary64.of_int 20000)
            (Binary64.of_int 300) (Binary64.dyadic 75 (-4)) _ Hincome _ Hgross).
  vm_compute; reflexivity.
Defined.

(** C3, at the rate 8400: the income is positive and the call raises
    [OverflowError], so no loan amount is returned. *)
Lemma overflow_blocks_loan_and_price :
  (of_int 0 <? Binary64.of_int 60000)%py = true /\
  calculate_affordability (Binary64.of_int 60000) (Binary64.of_int 20000)
    (Binary64.of_int 300) (Binary64.of_int 8400) = Raise OverflowError /\
  ~ (exists res,
       calculate_affordability (Binary64.of_int 60000) (Binary64.of_int 20000)
         (Binary64.of_int 300) (Binary64.of_int 8400) = Return res /\
       Result.max_loan_amount res = (Binary64.of_int 60000 * INCOME_MULTIPLIER)%py /\
       Result.affordable_property_price res
         = (Result.max_loan_amount res + Binary64.of_int 20000)%py).
Proof.
  assert (Hraise : calculate_affordability (Binary64.of_int 60000)
            (Binary64.of_int 20000) (Binary64.of_int 300) (Binary64.of_int 8400)
          = Raise OverflowError) by (vm_compute; reflexivity).
  split; [reflexivity|]. split; [exact Hraise|].
  intros (res & Hret & _). rewrite Hraise in Hret. discriminate.
Qed.

(** C4 (amended).  For every input with a non-zero income whose twelfth
    is not zero and on which the payment computation succeeds,
    [calculate_affordability] returns, with [dti_ratio] equal to
    [((estimated_monthly_payment + monthlyDebts) / (income / 12)) * 100]. *)
Theorem dti_ratio_formula :
  forall income deposit monthly_debts rate monthly_payment : Binary64.float,
    is_zero income = false ->
    monthly_payment_of (income * INCOME_MULTIPLIER)%py rate
      = Return monthly_payment ->
    is_zero (fquot income (of_int 12)) = false ->
    exists res,
      calculate_affordability income deposit monthly_debts rate = Return res /\
      Result.estimated_monthly_payment res = monthly_payment /\
      Result.dti_ratio res
        = (fquot (Result.estimated_monthly_payment res + monthly_debts)
                 (fquot income (of_int 12)) * of_int 100)%py.
Proof.
  intros income deposit monthly_debts rate monthly_payment _ Hpay Hgross.
  eexists. split.
  - apply calculate_returns; [exact Hpay|exact Hgross].
  - split; reflexivity.
Qed.

Lemma dti_ratio_formula_witness :
  exists monthly_payment,
    is_zero (Binary64.of_int 60000) = false /\
    monthly_payment_of (Binary64.of_int 60000 * INCOME_MULTIPLIER)%py
      (Binary64.dyadic 75 (-4)) = Return monthly_payment /\
    is_zero (fquot (Binary64.of_int 60000) (of_int 12)) = false /\
    exists res,
      calculate_affordability (Binary64.of_int 60000) (Binary64.of_int 20000)
        (Binary64.of_int 300) (Binary64.dyadic 75 (-4)) = Return res /\
      Result.estimated_monthly_payment res = monthly_payment /\
      Result.dti_ratio res
        = (fquot (Result.estimated_monthly_payment res + Binary64.of_int 300)
                 (fquot (Binary64.of_int 60000) (of_int 12)) * of_int 100)%py.
Proof.
  eexists.
  assert (Hincome : is_zero (Binary64.of_int 60000) = false) by reflexivity.
  assert (Hgross : is_zero (fquot (Binary64.of_int 60000) (of_int 12)) = false)
    by reflexivity.
  split; [exact Hincome|].
  split; [vm_compute; reflexivity|].
  split; [exact Hgross|].
  refine (dti_ratio_formula (Binary64.of_int 60000) (Binary64.of_int 20000)
            (Binary64.of_int 300) (Binary64.dyadic 75 (-4)) _ Hincome _ Hgross).
  vm_compute; reflexivity.
Defined.

(** C4, at the rate 8400: the income is not zero and the call raises
    [OverflowError], so no ratio is returned. *)
Lemma overflow_blocks_dti_ratio :
  is_zero (Binary64.of_int 60000) = false /\
  calculate_affordability (Binary64.of_int 60000) (Binary64.of_int 20000)
    (Binary64.of_int 300) (Binary64.of_int 8400) = Raise OverflowError /\
  ~ (exists res,
       calculate_affordability (Binary64.of_int 60000) (Binary64.of_int 20000)
         (Binary64.of_int 300) (Binary64.of_int 8400) = Return res /\
       Result.dti_ratio res
        = (fquot (Result.estimated_monthly_payment res + Binary64.of_int 300)
                 (fquot (Binary64.of_int 60000) (of_int 12)) * of_int 100)%py).
Proof.
  assert (Hraise : calculate_affordability (Binary64.of_int 60000)
            (Binary64.of_int 20000) (Binary64.of_int 300) (Binary64.of_int 8400)
          = Raise OverflowError) by (vm_compute; reflexivity).
  split; [reflexivity|]. split; [exact Hraise|].
  intros (res & Hret & _). rewrite Hraise in Hret. discriminate.
Qed.

(** C5 (amended).  For an income equal to zero [calculate_affordability]
    fails: it returns no result for any deposit, debts and rate.  When
    the payment computation succeeds the exception is the
    [ZeroDivisionError] of the division by the monthly income; otherwise
    it is the exception of the payment computation. *)
Theorem zero_income_raises :
  forall income deposit monthly_debts rate : Binary64.float,
    is_zero income = true ->
    (forall res,
       calculate_affordability income deposit monthly_debts rate <> Return res) /\
    calculate_affordability income deposit monthly_debts rate =
      match monthly_payment_of (income * INCOME_MULTIPLIER)%py rate with
      | Return _ => Raise ZeroDivisionError
      | Raise e => Raise e
      end.
Proof.
  intros income deposit monthly_debts rate Hincome.
  assert (Hcalc := calculate_zero_gross income deposit monthly_debts rate
                     (zero_income_zero_gross income Hincome)).
  split; [|exact Hcalc].
  intros res. rewrite Hcalc.
  destruct (monthly_payment_of _ _); discriminate.
Qed.

Lemma zero_income_raises_witness :
  is_zero (Binary64.of_int 0) = true /\
  (forall res,
     calculate_affordability (Binary64.of_int 0) (Binary64.of_int 20000)
       (Binary64.of_int 300) (Binary64.dyadic 75 (-4)) <> Return res) /\
  calculate_affordability (Binary64.of_int 0) (Binary64.of_int 20000)
    (Binary64.of_int 300) (Binary64.dyadic 75 (-4)) =
    match monthly_payment_of (Binary64.of_int 0 * INCOME_MULTIPLIER)%py
            (Binary64.dyadic 75 (-4)) with
    | Return _ => Raise ZeroDivisionError
    | Raise e => Raise e
    end.
Proof.
  assert (Hincome : is_zero (Binary64.of_int 0) = true) by reflexivity.
  split; [exact Hincome|].
  exact (zero_income_raises (Binary64.of_int 0) (Binary64.of_int 20000)
           (Binary64.of_int 300) (Binary64.dyadic 75 (-4)) Hincome).
Defined.

(** C5, at the income 0 and the rate 4.6875: the call raises
    [ZeroDivisionError]; it returns no result, with a non-finite ratio or
    otherwise. *)
Lemma zero_income_no_result :
  is_zero (Binary64.of_int 0) = true /\
  calculate_affordability (Binary64.of_int 0) (Binary64.of_int 20000)
    (Binary64.of_int 300) (Binary64.dyadic 75 (-4)) = Raise ZeroDivisionError /\
  ~ (exists res,
       calculate_affordability (Binary64.of_int 0) (Binary64.of_int 20000)
         (Binary64.of_int 300) (Binary64.dyadic 75 (-4)) = Return res).
Proof.
  assert (Hraise : calculate_affordability (Binary64.of_int 0)
            (Binary64.of_int 20000) (Binary64.of_int 300) (Binary64.dyadic 75 (-4))
          = Raise ZeroDivisionError) by (vm_compute; reflexivity).
  split; [reflexivity|]. split; [exact Hraise|].
  intros (res & Hret). rewrite Hraise in Hret. discriminate.
Qed.

(** * The calculator and the state *)

Section NoHiddenState.

(** With the bindings the module makes when loaded, the body is the
    function the other theorems are about. *)
Lemma calculate_affordability_in_loaded
    (income deposit monthly_debts rate : Binary64.float) :
  calculate_affordability_in loaded income deposit monthly_debts rate
  = calculate_affordability income deposit monthly_debts rate.
Proof. reflexivity. Qed.





End NoHiddenState.


(** C9 (amended).  For every input with a negative annual rate and an
    income whose twelfth is not zero, [calculate_affordability] takes the
    zero-rate branch and returns, with [estimated_monthly_payment] equal
    to [loanAmount / 360]; the amortization formula is not evaluated. *)
Theorem negative_rate_payment :
  forall income deposit monthly_debts rate : Binary64.float,
    (rate <? of_int 0)%py = true ->
    is_zero (gross_monthly_income_of income) = false ->
    (monthly_rate_of rate >? of_int 0)%py = false /\
    monthly_payment_of (income * INCOME_MULTIPLIER)%py rate
      = Return (fquot (income * INCOME_MULTIPLIER)%py (of_int 360)) /\
    exists res,
      calculate_affordability income deposit monthly_debts rate = Return res /\
      Result.estimated_monthly_payment res
        = fquot (income * INCOME_MULTIPLIER)%py (of_int 360).
Proof.
  intros income deposit monthly_debts rate Hrate Hgross.
  assert (Hbranch := negative_rate_not_positive rate Hrate).
  split; [exact Hbranch|].
  split; [now apply monthly_payment_not_positive|].
  eexists. split.
  - apply calculate_flat; [exact Hbranch|exact Hgross].
  - reflexivity.
Qed.

Lemma negative_rate_payment_witness :
  (Binary64.of_int (-1) <? of_int 0)%py = true /\
  is_zero (gross_monthly_income_of (Binary64.of_int 60000)) = false /\
  (monthly_rate_of (Binary64.of_int (-1)) >? of_int 0)%py = false /\
  monthly_payment_of (Binary64.of_int 60000 * INCOME_MULTIPLIER)%py
    (Binary64.of_int (-1))
    = Return (fquot (Binary64.of_int 60000 * INCOME_MULTIPLIER)%py (of_int 360)) /\
  exists res,
    calculate_affordability (Binary64.of_int 60000) (Binary64.of_int 20000)
      (Binary64.of_int 300) (Binary64.of_int (-1)) = Return res /\
    Result.estimated_monthly_payment res
      = fquot (Binary64.of_int 60000 * INCOME_MULTIPLIER)%py (of_int 360).
Proof.
  assert (Hrate : (Binary64.of_int (-1) <? of_int 0)%py = true) by reflexivity.
  assert (Hgross : is_zero (gross_monthly_income_of (Binary64.of_int 60000)) = false)
    by reflexivity.
  split; [exact Hrate|]. split; [exact Hgross|].
  exact (negative_rate_payment (Binary64.of_int 60000) (Binary64.of_int 20000)
           (Binary64.of_int 300) (Binary64.of_int (-1)) Hrate Hgross).
Defined.

(** C9, at a zero income: the rate -1 is negative and the call raises
    [ZeroDivisionError], so no payment is returned. *)
Lemma negative_rate_at_zero_income :
  (Binary64.of_int (-1) <? of_int 0)%py = true /\
  calculate_affordability (Binary64.of_int 0) (Binary64.of_int 20000)
    (Binary64.of_int 300) (Binary64.of_int (-1)) = Raise ZeroDivisionError /\
  ~ (exists res,
       calculate_affordability (Binary64.of_int 0) (Binary64.of_int 20000)
         (Binary64.of_int 300) (Binary64.of_int (-1)) = Return res /\
       Result.estimated_monthly_payment res
         = fquot (Binary64.of_int 0 * INCOME_MULTIPLIER)%py (of_int 360)).
Proof.
  assert (Hraise : calculate_affordability (Binary64.of_int 0)
            (Binary64.of_int 20000) (Binary64.of_int 300) (Binary64.of_int (-1))
          = Raise ZeroDivisionError) by (vm_compute; reflexivity).
  split; [reflexivity|]. split; [exact Hraise|].
  intros (res & Hret & _). rewrite Hraise in Hret. discriminate.
Qed.

(** * The scenario runner, for any arithmetic and calculator *)

Section RunnerFacts.
Context {F : Type} `{PyFloat F}.
Variable calculator : F -> F -> F -> F -> outcome (Result.t F).
Variables income deposit monthly_debts base_rate : F.

Local Abbreviation run :=
  (run_scenario_testing_with calculator income deposit monthly_debts base_rate).

(** What a run that returns has returned and printed. *)
Lemma run_returns_inv printed results :
  run = (printed, Return results) ->
  computed_results calculator income monthly_debts
    (scenarios base_rate deposit) = Return results /\
  map fst results = map fst (computed (scenarios base_rate deposit)) /\
  printed = banner :: map (fun item => skip_message (fst item))
                        (skipped (scenarios base_rate deposit)).
Proof.
  unfold run_scenario_testing_with. intros Hrun.
  assert (Hsnd := scenario_loop_results calculator income monthly_debts
                    (scenarios base_rate deposit) [banner] []).
  assert (Hfst := scenario_loop_printed calculator income monthly_debts
                    (scenarios base_rate deposit) [banner] []).
  rewrite Hrun in Hsnd, Hfst. cbn [fst snd] in Hsnd, Hfst.
  destruct (computed_results _ _ _ _) as [tail|e] eqn:Hcalls;
    cbn [bind] in Hsnd; [|discriminate].
  injection Hsnd as ->. cbn [app] in *.
  split; [reflexivity|]. split.
  - now apply (computed_results_labels calculator income monthly_debts).
  - now apply (Hfst tail).
Qed.

(** The run when the base deposit is not negative and the first two
    calls return. *)
Lemma run_not_negative base high :
  (deposit <? of_int 0)%py = false ->
  calculator income deposit monthly_debts base_rate = Return base ->
  calculator income deposit monthly_debts (base_rate + lit_1_5)%py
    = Return high ->
  run =
  if (deposit - of_int 10000 <? of_int 0)%py then
    ([banner; skip_message "Lower Deposit (-£10,000)"],
     Return [("Base Case", base); ("High Interest Rate (+1.5%)", high)])
  else
    match calculator income (deposit - of_int 10000)%py monthly_debts
            base_rate with
    | Return lower =>
        ([banner],
         Return [("Base Case", base); ("High Interest Rate (+1.5%)", high);
                 ("Lower Deposit (-£10,000)", lower)])
    | Raise e => ([banner], Raise e)
    end.
Proof.
  intros Hdep Hbase Hhigh.
  unfold run_scenario_testing_with, scenarios.
  cbn [scenario_loop Params.deposit Params.rate].
  rewrite Hdep, Hbase, Hhigh.
  destruct (_ <? _)%py; [reflexivity|].
  destruct (calculator _ _ _ _); reflexivity.
Qed.

(** The run when the first call raises. *)
Lemma run_base_raises e :
  (deposit <? of_int 0)%py = false ->
  calculator income deposit monthly_debts base_rate = Raise e ->
  run = ([banner], Raise e).
Proof.
  intros Hdep Hbase.
  unfold run_scenario_testing_with, scenarios.
  cbn [scenario_loop Params.deposit Params.rate].
  now rewrite Hdep, Hbase.
Qed.
End RunnerFacts.

Section RunnerFirstEntry.
Context {F : Type} `{PyFloat F}.

(** A run that returns has called the calculator on the unperturbed
    inputs first, and that call returned. *)
Lemma run_first_entry
    (calculator : F -> F -> F -> F -> outcome (Result.t F))
    (income deposit monthly_debts base_rate : F) printed results :
  (deposit <? of_int 0)%py = false ->
  run_scenario_testing_with calculator income deposit monthly_debts base_rate
    = (printed, Return results) ->
  exists base tail,
    calculator income deposit monthly_debts base_rate = Return base /\
    results = ("Base Case", base) :: tail.
Proof.
  intros Hdep.
  destruct (calculator income deposit monthly_debts base_rate)
    as [base|e] eqn:Hbase.
  - destruct (calculator income deposit monthly_debts (base_rate + lit_1_5)%py)
      as [high|e] eqn:Hhigh.
    + rewrite (run_not_negative calculator income deposit monthly_debts
                 base_rate base high Hdep Hbase Hhigh).
      destruct (deposit - of_int 10000 <? of_int 0)%py.
      * intros [= <- <-]. now eexists; eexists.
      * destruct (calculator income (deposit - of_int 10000)%py monthly_debts
                    base_rate); [|discriminate].
        intros [= <- <-]. now eexists; eexists.
    + unfold run_scenario_testing_with, scenarios.
      cbn [scenario_loop Params.deposit Params.rate].
      rewrite Hdep, Hbase, Hhigh. discriminate.
  - rewrite (run_base_raises calculator income deposit monthly_debts
               base_rate e Hdep Hbase).
    discriminate.
Qed.
End RunnerFirstEntry.

(** * The scenario runner on binary64 *)

(** C6.  Whenever [run_scenario_testing] returns, a scenario of the
    dictionary whose deposit is negative has no entry in the returned
    list and has been reported; it has not been computed, since replacing
    the calculator by any other that agrees with it on the deposits that
    are not negative gives the same run.  In particular, for a deposit of
    5000 the returned labels are those of the first two scenarios, and
    that of the lower-deposit scenario is absent. *)
Theorem negative_deposit_scenario_skipped :
  forall (income deposit monthly_debts base_rate : Binary64.float)
         (printed : list string)
         (results : list (string * Result.t Binary64.float)),
    run_scenario_testing income deposit monthly_debts base_rate
      = (printed, Return results) ->
    (forall name params,
       In (name, params) (scenarios base_rate deposit) ->
       (Params.deposit params <? of_int 0)%py = true ->
       ~ In name (map fst results) /\ In (skip_message name) printed) /\
    (forall calculator,
       (forall i d m r, (d <? of_int 0)%py = false ->
                        calculator i d m r = calculate_affordability i d m r) ->
       run_scenario_testing_with calculator income deposit monthly_debts base_rate
         = (printed, Return results)) /\
    (deposit = Binary64.of_int 5000 ->
       map fst results = ["Base Case"; "High Interest Rate (+1.5%)"] /\
       ~ In "Lower Deposit (-£10,000)" (map fst results)).
Proof.
  intros income deposit monthly_debts base_rate printed results Hrun.
  destruct (run_returns_inv calculate_affordability income deposit monthly_debts
              base_rate printed results Hrun) as (Hcalls & Hlabels & Hprinted).
  split; [|split].
  - intros name params Hin Hneg. split.
    + rewrite Hlabels.
      apply (skipped_not_computed (scenarios base_rate deposit) (name, params));
        [apply scenarios_distinct|exact Hin|exact Hneg].
    + rewrite Hprinted. right.
      apply (in_map (fun item => skip_message (fst item)) _ (name, params)).
      apply filter_In. now split.
  - intros calculator Hagree. unfold run_scenario_testing_with.
    rewrite (scenario_loop_ext calculate_affordability calculator income
               monthly_debts Hagree).
    exact Hrun.
  - intros ->.
    assert (Hbase : (Binary64.of_int 5000 <? of_int 0)%py = false) by reflexivity.
    assert (Hlower : (Binary64.of_int 5000 - of_int 10000 <? of_int 0)%py = true)
      by reflexivity.
    assert (Hlab : map fst results = ["Base Case"; "High Interest Rate (+1.5%)"]).
    { rewrite Hlabels. unfold computed, scenarios, negative_deposit.
      cbn [filter snd Params.deposit]. rewrite Hbase, Hlower. reflexivity. }
    split; [exact Hlab|].
    rewrite Hlab. cbn [In]. intuition discriminate.
Qed.

Lemma negative_deposit_scenario_skipped_witness :
  exists printed results,
    run_scenario_testing (Binary64.of_int 60000) (Binary64.of_int 5000)
      (Binary64.of_int 300) (Binary64.dyadic (-3) (-1)) = (printed, Return results) /\
    map fst results = ["Base Case"; "High Interest Rate (+1.5%)"] /\
    ~ In "Lower Deposit (-£10,000)" (map fst results).
Proof.
  eexists. eexists.
  assert (Hrun : run_scenario_testing (Binary64.of_int 60000)
                   (Binary64.of_int 5000) (Binary64.of_int 300)
                   (Binary64.dyadic (-3) (-1)) = (?[printed], Return ?[results]))
    by (vm_compute; reflexivity).
  split; [exact Hrun|].
  exact (proj2 (proj2 (negative_deposit_scenario_skipped
                         (Binary64.of_int 60000) (Binary64.of_int 5000)
                         (Binary64.of_int 300) (Binary64.dyadic (-3) (-1))
                         _ _ Hrun))
               eq_refl).
Defined.

(** C7 (amended).  For every input whose deposit is not negative and on
    which the calculator returns for the base case and for the raised
    rate, [run_scenario_testing] returns exactly the scenarios of the
    fixed three that are not skipped, labelled and ordered "Base Case",
    "High Interest Rate (+1.5%)", "Lower Deposit (-£10,000)": the third
    is present exactly when the lowered deposit is not negative, and
    each entry holds the calculator's result for its scenario. *)
Theorem scenario_labels_in_order :
  forall (income deposit monthly_debts base_rate : Binary64.float)
         (base high : Result.t Binary64.float),
    (deposit <? of_int 0)%py = false ->
    calculate_affordability income deposit monthly_debts base_rate
      = Return base ->
    calculate_affordability income deposit monthly_debts
      (base_rate + lit_1_5)%py = Return high ->
    exists lower printed results,
      calculate_affordability income (deposit - of_int 10000)%py
        monthly_debts base_rate = Return lower /\
      run_scenario_testing income deposit monthly_debts base_rate
        = (printed, Return results) /\
      results =
        (if (deposit - of_int 10000 <? of_int 0)%py
         then [("Base Case", base); ("High Interest Rate (+1.5%)", high)]
         else [("Base Case", base); ("High Interest Rate (+1.5%)", high);
               ("Lower Deposit (-£10,000)", lower)]) /\
      map fst results = map fst (computed (scenarios base_rate deposit)).
Proof.
  intros income deposit monthly_debts base_rate base high Hdep Hbase Hhigh.
  assert (Hlower := calculate_any_deposit income deposit
                      (deposit - of_int 10000)%py monthly_debts base_rate
                      base Hbase).
  assert (Hrun := run_not_negative calculate_affordability income deposit
                    monthly_debts base_rate base high Hdep Hbase Hhigh).
  rewrite Hlower in Hrun.
  destruct (deposit - of_int 10000 <? of_int 0)%py eqn:Hneg;
    (eexists; eexists; eexists;
     split; [exact Hlower|]; split; [exact Hrun|]; split; [reflexivity|];
     unfold computed, scenarios, negative_deposit;
     cbn [filter snd Params.deposit]; rewrite Hdep, Hneg; reflexivity).
Qed.

Lemma scenario_labels_in_order_witness :
  exists base high,
    (Binary64.of_int 20000 <? of_int 0)%py = false /\
    calculate_affordability (Binary64.of_int 60000) (Binary64.of_int 20000)
      (Binary64.of_int 300) (Binary64.dyadic (-3) (-1)) = Return base /\
    calculate_affordability (Binary64.of_int 60000) (Binary64.of_int 20000)
      (Binary64.of_int 300) (Binary64.dyadic (-3) (-1) + lit_1_5)%py = Return high /\
    exists lower printed results,
      calculate_affordability (Binary64.of_int 60000)
        (Binary64.of_int 20000 - of_int 10000)%py
        (Binary64.of_int 300) (Binary64.dyadic (-3) (-1)) = Return lower /\
      run_scenario_testing (Binary64.of_int 60000) (Binary64.of_int 20000)
        (Binary64.of_int 300) (Binary64.dyadic (-3) (-1)) = (printed, Return results) /\
      results =
        (if (Binary64.of_int 20000 - of_int 10000 <? of_int 0)%py
         then [("Base Case", base); ("High Interest Rate (+1.5%)", high)]
         else [("Base Case", base); ("High Interest Rate (+1.5%)", high);
               ("Lower Deposit (-£10,000)", lower)]) /\
      map fst results
        = map fst (computed (scenarios (Binary64.dyadic (-3) (-1)) (Binary64.of_int 20000))).
Proof.
  eexists. eexists.
  assert (Hdep : (Binary64.of_int 20000 <? of_int 0)%py = false) by reflexivity.
  split; [exact Hdep|].
  split; [vm_compute; reflexivity|].
  split; [vm_compute; reflexivity|].
  refine (scenario_labels_in_order (Binary64.of_int 60000) (Binary64.of_int 20000)
            (Binary64.of_int 300) (Binary64.dyadic (-3) (-1)) _ _ Hdep _ _);
    vm_compute; reflexivity.
Defined.

(** C7, at a zero income: the deposit 20000 is not negative and the run
    raises [ZeroDivisionError] in its first call, so no sequence is
    returned. *)
Lemma scenario_run_raises :
  (Binary64.of_int 20000 <? of_int 0)%py = false /\
  run_scenario_testing (Binary64.of_int 0) (Binary64.of_int 20000)
    (Binary64.of_int 300) (Binary64.dyadic 75 (-4))
    = ([banner], Raise ZeroDivisionError) /\
  ~ (exists printed results,
       run_scenario_testing (Binary64.of_int 0) (Binary64.of_int 20000)
         (Binary64.of_int 300) (Binary64.dyadic 75 (-4)) = (printed, Return results)).
Proof.
  assert (Hraise : run_scenario_testing (Binary64.of_int 0) (Binary64.of_int 20000)
            (Binary64.of_int 300) (Binary64.dyadic 75 (-4))
          = ([banner], Raise ZeroDivisionError)) by (vm_compute; reflexivity).
  split; [reflexivity|]. split; [exact Hraise|].
  intros (printed & results & Hret). rewrite Hraise in Hret. discriminate.
Qed.

(** C10 (amended).  For every input whose deposit is not negative:
    whenever [run_scenario_testing] returns, the first element of the
    sequence is labelled "Base Case" and its result is the one
    [calculate_affordability] returns on the unperturbed inputs; and it
    does return, with that first element, whenever the calculator returns
    for the base case and for the raised rate. *)
Theorem base_case_first :
  forall income deposit monthly_debts base_rate : Binary64.float,
    (deposit <? of_int 0)%py = false ->
    (forall printed results,
       run_scenario_testing income deposit monthly_debts base_rate
         = (printed, Return results) ->
       exists base tail,
         calculate_affordability income deposit monthly_debts base_rate
           = Return base /\
         results = ("Base Case", base) :: tail) /\
    (forall base high,
       calculate_affordability income deposit monthly_debts base_rate
         = Return base ->
       calculate_affordability income deposit monthly_debts
         (base_rate + lit_1_5)%py = Return high ->
       exists printed tail,
         run_scenario_testing income deposit monthly_debts base_rate
           = (printed, Return (("Base Case", base) :: tail))).
Proof.
  intros income deposit monthly_debts base_rate Hdep. split.
  - intros printed results Hrun.
    exact (run_first_entry calculate_affordability income deposit monthly_debts
             base_rate printed results Hdep Hrun).
  - intros base high Hbase Hhigh.
    assert (Hlower := calculate_any_deposit income deposit
                        (deposit - of_int 10000)%py monthly_debts base_rate
                        base Hbase).
    assert (Hrun := run_not_negative calculate_affordability income deposit
                      monthly_debts base_rate base high Hdep Hbase Hhigh).
    rewrite Hlower in Hrun.
    destruct (deposit - of_int 10000 <? of_int 0)%py;
      eexists; eexists; exact Hrun.
Qed.

Lemma base_case_first_witness :
  (Binary64.of_int 20000 <? of_int 0)%py = false /\
  (forall printed results,
     run_scenario_testing (Binary64.of_int 60000) (Binary64.of_int 20000)
       (Binary64.of_int 300) (Binary64.dyadic 75 (-4)) = (printed, Return results) ->
     exists base tail,
       calculate_affordability (Binary64.of_int 60000) (Binary64.of_int 20000)
         (Binary64.of_int 300) (Binary64.dyadic 75 (-4)) = Return base /\
       results = ("Base Case", base) :: tail) /\
  (forall base high,
     calculate_affordability (Binary64.of_int 60000) (Binary64.of_int 20000)
       (Binary64.of_int 300) (Binary64.dyadic 75 (-4)) = Return base ->
     calculate_affordability (Binary64.of_int 60000) (Binary64.of_int 20000)
       (Binary64.of_int 300) (Binary64.dyadic 75 (-4) + lit_1_5)%py = Return high ->
     exists printed tail,
       run_scenario_testing (Binary64.of_int 60000) (Binary64.of_int 20000)
         (Binary64.of_int 300) (Binary64.dyadic 75 (-4))
         = (printed, Return (("Base Case", base) :: tail))).
Proof.
  assert (Hdep : (Binary64.of_int 20000 <? of_int 0)%py = false) by reflexivity.
  split; [exact Hdep|].
  exact (base_case_first (Binary64.of_int 60000) (Binary64.of_int 20000)
           (Binary64.of_int 300) (Binary64.dyadic 75 (-4)) Hdep).
Defined.

(** C10, at a zero income: the deposit 20000 is not negative and the run
    raises [ZeroDivisionError], so it returns no sequence and no first
    element. *)
Lemma base_case_run_raises :
  (Binary64.of_int 20000 <? of_int 0)%py = false /\
  run_scenario_testing (Binary64.of_int 0) (Binary64.of_int 20000)
    (Binary64.of_int 300) (Binary64.dyadic 75 (-4))
    = ([banner], Raise ZeroDivisionError) /\
  ~ (exists printed base tail,
       run_scenario_testing (Binary64.of_int 0) (Binary64.of_int 20000)
         (Binary64.of_int 300) (Binary64.dyadic 75 (-4))
         = (printed, Return (("Base Case", base) :: tail))).
Proof.
  assert (Hraise : run_scenario_testing (Binary64.of_int 0) (Binary64.of_int 20000)
            (Binary64.of_int 300) (Binary64.dyadic 75 (-4))
          = ([banner], Raise ZeroDivisionError)) by (vm_compute; reflexivity).
  split; [reflexivity|]. split; [exact Hraise|].
  intros (printed & base & tail & Hret). rewrite Hraise in Hret. discriminate.
Qed.

(** * Further properties of the calculator *)

Lemma binary64_pow_raises_overflow (x : Binary64.float) (n : positive) e :
  Binary64.pow x n = Raise e -> e = OverflowError.
Proof.
  unfold Binary64.pow. destruct x as [s|s| |s m ex]; try discriminate.
  destruct (binary_normalize _ _ _ _ _); try discriminate.
  now intros [= <-].
Qed.

(** X1.  The deposit and the monthly debts play no part in whether a call
    returns or in the payment: a call that returns still returns after
    they are changed, with the same payment and the same loan, and a
    call that raises still raises the same exception. *)
Theorem deposit_and_debts_do_not_matter :
  forall income deposit monthly_debts rate deposit' monthly_debts'
         : Binary64.float,
    (forall res,
       calculate_affordability income deposit monthly_debts rate = Return res ->
       exists res',
         calculate_affordability income deposit' monthly_debts' rate
           = Return res' /\
         Result.estimated_monthly_payment res'
           = Result.estimated_monthly_payment res /\
         Result.max_loan_amount res' = Result.max_loan_amount res) /\
    (forall e,
       calculate_affordability income deposit monthly_debts rate = Raise e ->
       calculate_affordability income deposit' monthly_debts' rate = Raise e).
Proof.
  intros income deposit monthly_debts rate deposit' monthly_debts'.
  rewrite !calculate_affordability_steps.
  destruct (monthly_payment_of _ _) as [pay|e0]; cbn [bind].
  - destruct (is_zero (gross_monthly_income_of income)).
    + split; [discriminate|]. intros e He. exact He.
    + split; [|discriminate].
      intros res [= <-]. eexists. split; [reflexivity|]. split; reflexivity.
  - split; [discriminate|]. intros e He. exact He.
Qed.

(** X2.  [OverflowError] comes from the power and from nowhere else: the
    call raises it exactly when the monthly rate is positive and
    [(1 + r) ** 360] overflows. *)
Theorem overflow_only_from_the_power :
  forall income deposit monthly_debts rate : Binary64.float,
    calculate_affordability income deposit monthly_debts rate
      = Raise OverflowError <->
    (monthly_rate_of rate >? of_int 0)%py = true /\
    ((of_int 1 + monthly_rate_of rate) ** 360)%py = Raise OverflowError.
Proof.
  intros income deposit monthly_debts rate.
  rewrite calculate_affordability_steps.
  destruct (monthly_rate_of rate >? of_int 0)%py eqn:Hpos.
  - rewrite (monthly_payment_positive _ _ Hpos).
    destruct ((of_int 1 + monthly_rate_of rate) ** 360)%py as [g|e] eqn:Hpow;
      cbn [bind].
    + unfold truediv.
      destruct (is_zero (g - of_int 1)%py); cbn [bind].
      * split; [discriminate|]. intros [_ Habs]. discriminate.
      * destruct (is_zero (gross_monthly_income_of income));
          (split; [discriminate|]); intros [_ Habs]; discriminate.
    + assert (He : e = OverflowError)
        by exact (binary64_pow_raises_overflow _ _ _ Hpow).
      subst e. split; [now split|reflexivity].
  - rewrite (monthly_payment_not_positive _ _ Hpos). cbn [bind].
    destruct (is_zero (gross_monthly_income_of income));
      (split; [discriminate|]); intros [Habs _]; discriminate.
Qed.

(** X3.  [ZeroDivisionError] has two causes only: with a positive monthly
    rate, a power [(1 + r) ** 360] whose difference with 1 is zero; or,
    once the payment is computed, an income whose twelfth is zero. *)
Theorem zero_division_causes :
  forall income deposit monthly_debts rate : Binary64.float,
    calculate_affordability income deposit monthly_debts rate
      = Raise ZeroDivisionError <->
    ((monthly_rate_of rate >? of_int 0)%py = true /\
     exists growth,
       ((of_int 1 + monthly_rate_of rate) ** 360)%py = Return growth /\
       is_zero (growth - of_int 1)%py = true) \/
    ((exists monthly_payment,
        monthly_payment_of (income * INCOME_MULTIPLIER)%py rate
          = Return monthly_payment) /\
     is_zero (gross_monthly_income_of income) = true).
Proof.
  intros income deposit monthly_debts rate.
  rewrite calculate_affordability_steps.
  destruct (monthly_rate_of rate >? of_int 0)%py eqn:Hpos.
  - rewrite (monthly_payment_positive _ _ Hpos).
    destruct ((of_int 1 + monthly_rate_of rate) ** 360)%py as [g|e] eqn:Hpow;
      cbn [bind].
    + unfold truediv.
      destruct (is_zero (g - of_int 1)%py) eqn:Hone; cbn [bind].
      * split; [|reflexivity]. intros _. left. split; [reflexivity|].
        exists g. now split.
      * destruct (is_zero (gross_monthly_income_of income)) eqn:Hgross.
        -- split; [|reflexivity]. intros _. right. split; [|reflexivity].
           eexists. reflexivity.
        -- split; [discriminate|].
           intros [(_ & g' & [= <-] & Habs)|[_ Habs]];
             [congruence|discriminate].
    + assert (He : e = OverflowError)
        by exact (binary64_pow_raises_overflow _ _ _ Hpow).
      subst e. split; [discriminate|].
      intros [(_ & g' & Habs & _)|[(pay & Habs) _]]; discriminate.
  - rewrite (monthly_payment_not_positive _ _ Hpos). cbn [bind].
    destruct (is_zero (gross_monthly_income_of income)) eqn:Hgross.
    + split; [|reflexivity]. intros _. right. split; [|reflexivity].
      eexists. reflexivity.
    + split; [discriminate|].
      intros [(Habs & _)|[_ Habs]]; discriminate.
Qed.

(** * Further properties of the scenario runner *)

Section RunnerEntries.
Context {F : Type} `{PyFloat F}.

(** The scenario a label of the dictionary stands for. *)
Lemma scenarios_lookup (base_rate deposit : F) name params :
  In (name, params) (scenarios base_rate deposit) ->
  (name = "Base Case" /\ params = Params.Build base_rate deposit) \/
  (name = "High Interest Rate (+1.5%)" /\
   params = Params.Build (base_rate + lit_1_5)%py deposit) \/
  (name = "Lower Deposit (-£10,000)" /\
   params = Params.Build base_rate (deposit - of_int 10000)%py).
Proof.
  unfold scenarios. cbn [In].
  intros [[= <- <-]|[[= <- <-]|[[= <- <-]|[]]]]; auto.
Qed.

(** Each entry of a run that returns is the calculator's answer for the
    scenario of its label, and that scenario's deposit is not negative. *)
Lemma run_entry_inv
    (calculator : F -> F -> F -> F -> outcome (Result.t F))
    (income deposit monthly_debts base_rate : F) printed results name res :
  run_scenario_testing_with calculator income deposit monthly_debts base_rate
    = (printed, Return results) ->
  In (name, res) results ->
  exists params,
    In (name, params) (scenarios base_rate deposit) /\
    (Params.deposit params <? of_int 0)%py = false /\
    calculator income (Params.deposit params) monthly_debts
      (Params.rate params) = Return res.
Proof.
  intros Hrun Hin.
  destruct (run_returns_inv calculator income deposit monthly_debts base_rate
              printed results Hrun) as (Hcalls & _ & _).
  exact (computed_results_sound calculator income monthly_debts
           (scenarios base_rate deposit) results name res Hcalls Hin).
Qed.
End RunnerEntries.

(** X4.  Every entry of the sequence [run_scenario_testing] returns is
    the result of [calculate_affordability] for a scenario of the
    dictionary with the same label: it carries the caller's income and
    debts, the scenario's deposit and rate, a deposit that is not
    negative, and the loan [income * 4.5]. *)
Theorem returned_entries_are_computed_scenarios :
  forall (income deposit monthly_debts base_rate : Binary64.float)
         printed results name res,
    run_scenario_testing income deposit monthly_debts base_rate
      = (printed, Return results) ->
    In (name, res) results ->
    exists params,
      In (name, params) (scenarios base_rate deposit) /\
      calculate_affordability income (Params.deposit params) monthly_debts
        (Params.rate params) = Return res /\
      Result.income res = income /\
      Result.monthly_debts res = monthly_debts /\
      Result.deposit res = Params.deposit params /\
      Result.interest_rate res = Params.rate params /\
      (Result.deposit res <? of_int 0)%py = false /\
      Result.max_loan_amount res = (income * INCOME_MULTIPLIER)%py.
Proof.
  intros income deposit monthly_debts base_rate printed results name res
    Hrun Hin.
  destruct (run_entry_inv calculate_affordability income deposit monthly_debts
              base_rate printed results name res Hrun Hin)
    as (params & Hparams & Hdep & Hcall).
  exists params. split; [exact Hparams|]. split; [exact Hcall|].
  destruct (calculate_returns_inv _ _ _ _ _ Hcall) as (pay & _ & _ & ->).
  cbn [result_with Result.income Result.monthly_debts Result.deposit
       Result.interest_rate Result.max_loan_amount].
  repeat split. exact Hdep.
Qed.

Lemma returned_entries_are_computed_scenarios_witness :
  exists printed results name res,
    run_scenario_testing (Binary64.of_int 60000) (Binary64.of_int 5000)
      (Binary64.of_int 300) (Binary64.dyadic (-3) (-1))
      = (printed, Return results) /\
    In (name, res) results /\
    exists params,
      In (name, params)
        (scenarios (Binary64.dyadic (-3) (-1)) (Binary64.of_int 5000)) /\
      calculate_affordability (Binary64.of_int 60000) (Params.deposit params)
        (Binary64.of_int 300) (Params.rate params) = Return res /\
      Result.income res = Binary64.of_int 60000 /\
      Result.monthly_debts res = Binary64.of_int 300 /\
      Result.deposit res = Params.deposit params /\
      Result.interest_rate res = Params.rate params /\
      (Result.deposit res <? of_int 0)%py = false /\
      Result.max_loan_amount res
        = (Binary64.of_int 60000 * INCOME_MULTIPLIER)%py.
Proof.
  eexists. eexists. eexists. eexists.
  assert (Hrun : run_scenario_testing (Binary64.of_int 60000)
                   (Binary64.of_int 5000) (Binary64.of_int 300)
                   (Binary64.dyadic (-3) (-1))
                 = (?[printed], Return ?[results]))
    by (vm_compute; reflexivity).
  match type of Hrun with
  | _ = (_, Return ?l) =>
      assert (Hin : In (?[name], ?[res]) l) by (left; reflexivity)
  end.
  split; [exact Hrun|]. split; [exact Hin|].
  exact (returned_entries_are_computed_scenarios _ _ _ _ _ _ _ _ Hrun Hin).
Defined.

(** X5.  What the perturbations change.  In a sequence
    [run_scenario_testing] returns, the lower-deposit entry has the
    monthly payment, the DTI ratio and the loan of the base case, and the
    property price [loan + (deposit - 10000)]; the high-rate entry has
    the loan and the property price of the base case. *)
Theorem perturbed_scenarios_against_base :
  forall (income deposit monthly_debts base_rate : Binary64.float)
         printed results base,
    run_scenario_testing income deposit monthly_debts base_rate
      = (printed, Return results) ->
    In ("Base Case", base) results ->
    (forall lower,
       In ("Lower Deposit (-£10,000)", lower) results ->
       Result.estimated_monthly_payment lower
         = Result.estimated_monthly_payment base /\
       Result.dti_ratio lower = Result.dti_ratio base /\
       Result.max_loan_amount lower = Result.max_loan_amount base /\
       Result.affordable_property_price lower
         = (Result.max_loan_amount base + (deposit - of_int 10000))%py) /\
    (forall high,
       In ("High Interest Rate (+1.5%)", high) results ->
       Result.max_loan_amount high = Result.max_loan_amount base /\
       Result.affordable_property_price high
         = Result.affordable_property_price base /\
       Result.interest_rate high = (base_rate + lit_1_5)%py).
Proof.
  intros income deposit monthly_debts base_rate printed results base Hrun Hbase.
  destruct (run_entry_inv calculate_affordability income deposit monthly_debts
              base_rate printed results _ _ Hrun Hbase)
    as (pb & Hpb & _ & Hcallb).
  apply scenarios_lookup in Hpb as [[_ ->]|[[Habs _]|[Habs _]]];
    [|discriminate|discriminate].
  cbn [Params.deposit Params.rate] in Hcallb.
  destruct (calculate_returns_inv _ _ _ _ _ Hcallb) as (pay & Hpay & Hg & ->).
  split.
  - intros lower Hlower.
    destruct (run_entry_inv calculate_affordability income deposit monthly_debts
                base_rate printed results _ _ Hrun Hlower)
      as (pl & Hpl & _ & Hcalll).
    apply scenarios_lookup in Hpl as [[Habs _]|[[Habs _]|[_ ->]]];
      [discriminate|discriminate|].
    cbn [Params.deposit Params.rate] in Hcalll.
    rewrite (calculate_returns _ _ _ _ _ Hpay Hg) in Hcalll.
    injection Hcalll as <-. repeat split.
  - intros high Hhigh.
    destruct (run_entry_inv calculate_affordability income deposit monthly_debts
                base_rate printed results _ _ Hrun Hhigh)
      as (ph & Hph & _ & Hcallh).
    apply scenarios_lookup in Hph as [[Habs _]|[[_ ->]|[Habs _]]];
      [discriminate| |discriminate].
    cbn [Params.deposit Params.rate] in Hcallh.
    destruct (calculate_returns_inv _ _ _ _ _ Hcallh) as (payh & _ & _ & ->).
    repeat split.
Qed.

Lemma perturbed_scenarios_against_base_witness :
  exists printed results base,
    run_scenario_testing (Binary64.of_int 60000) (Binary64.of_int 20000)
      (Binary64.of_int 300) (Binary64.dyadic (-3) (-1))
      = (printed, Return results) /\
    In ("Base Case", base) results /\
    (forall lower,
       In ("Lower Deposit (-£10,000)", lower) results ->
       Result.estimated_monthly_payment lower
         = Result.estimated_monthly_payment base /\
       Result.dti_ratio lower = Result.dti_ratio base /\
       Result.max_loan_amount lower = Result.max_loan_amount base /\
       Result.affordable_property_price lower
         = (Result.max_loan_amount base
            + (Binary64.of_int 20000 - of_int 10000))%py) /\
    (forall high,
       In ("High Interest Rate (+1.5%)", high) results ->
       Result.max_loan_amount high = Result.max_loan_amount base /\
       Result.affordable_property_price high
         = Result.affordable_property_price base /\
       Result.interest_rate high = (Binary64.dyadic (-3) (-1) + lit_1_5)%py).
Proof.
  eexists. eexists. eexists.
  assert (Hrun : run_scenario_testing (Binary64.of_int 60000)
                   (Binary64.of_int 20000) (Binary64.of_int 300)
                   (Binary64.dyadic (-3) (-1))
                 = (?[printed], Return ?[results]))
    by (vm_compute; reflexivity).
  match type of Hrun with
  | _ = (_, Return ?l) =>
      assert (Hin : In ("Base Case", ?[base]) l) by (left; reflexivity)
  end.
  split; [exact Hrun|]. split; [exact Hin|].
  exact (perturbed_scenarios_against_base _ _ _ _ _ _ _ Hrun Hin).
Defined.

(** X6.  For a deposit that is not negative, [run_scenario_testing]
    returns exactly when [calculate_affordability] returns for the base
    rate and for the rate raised by 1.5; otherwise it raises the exception
    of the first of the two calls that fails. *)
Theorem run_returns_iff_calls_return :
  forall income deposit monthly_debts base_rate : Binary64.float,
    (deposit <? of_int 0)%py = false ->
    ((exists printed results,
        run_scenario_testing income deposit monthly_debts base_rate
          = (printed, Return results)) <->
     (exists base,
        calculate_affordability income deposit monthly_debts base_rate
          = Return base) /\
     (exists high,
        calculate_affordability income deposit monthly_debts
          (base_rate + lit_1_5)%py = Return high)) /\
    (forall e,
       snd (run_scenario_testing income deposit monthly_debts base_rate)
         = Raise e <->
       calculate_affordability income deposit monthly_debts base_rate
         = Raise e \/
       ((exists base,
           calculate_affordability income deposit monthly_debts base_rate
             = Return base) /\
        calculate_affordability income deposit monthly_debts
          (base_rate + lit_1_5)%py = Raise e)).
Proof.
  intros income deposit monthly_debts base_rate Hdep.
  unfold run_scenario_testing, run_scenario_testing_with, scenarios.
  cbn [scenario_loop Params.deposit Params.rate]. rewrite Hdep.
  destruct (calculate_affordability income deposit monthly_debts base_rate)
    as [base|eb] eqn:Hbase.
  - assert (Hlower := calculate_any_deposit income deposit
                        (deposit - of_int 10000)%py monthly_debts base_rate
                        base Hbase).
    destruct (calculate_affordability income deposit monthly_debts
                (base_rate + lit_1_5)%py) as [high|eh] eqn:Hhigh.
    + rewrite Hlower.
      destruct (deposit - of_int 10000 <? of_int 0)%py; cbn [snd].
      * split.
        -- split; [intros _; split; eexists; reflexivity|].
           intros _. eexists. eexists. reflexivity.
        -- intros e. split; [discriminate|].
           intros [Habs|[_ Habs]]; discriminate.
      * split.
        -- split; [intros _; split; eexists; reflexivity|].
           intros _. eexists. eexists. reflexivity.
        -- intros e. split; [discriminate|].
           intros [Habs|[_ Habs]]; discriminate.
    + cbn [snd]. split.
      * split; [intros (p & r & Habs); discriminate|].
        intros [_ [h Habs]]. discriminate.
      * intros e. split.
        -- intros [= <-]. right. split; [eexists; reflexivity|reflexivity].
        -- intros [Habs|[_ [= <-]]]; [discriminate|reflexivity].
  - cbn [snd]. split.
    + split; [intros (p & r & Habs); discriminate|].
      intros [[b Habs] _]. discriminate.
    + intros e. split.
      * intros [= <-]. now left.
      * intros [[= <-]|[[b Habs] _]]; [reflexivity|discriminate].
Qed.

Lemma run_returns_iff_calls_return_witness :
  (Binary64.of_int 20000 <? of_int 0)%py = false /\
  ((exists printed results,
      run_scenario_testing (Binary64.of_int 60000) (Binary64.of_int 20000)
        (Binary64.of_int 300) (Binary64.dyadic 75 (-4))
        = (printed, Return results)) <->
   (exists base,
      calculate_affordability (Binary64.of_int 60000) (Binary64.of_int 20000)
        (Binary64.of_int 300) (Binary64.dyadic 75 (-4)) = Return base) /\
   (exists high,
      calculate_affordability (Binary64.of_int 60000) (Binary64.of_int 20000)
        (Binary64.of_int 300) (Binary64.dyadic 75 (-4) + lit_1_5)%py
        = Return high)).
Proof.
  assert (Hdep : (Binary64.of_int 20000 <? of_int 0)%py = false) by reflexivity.
  split; [exact Hdep|].
  exact (proj1 (run_returns_iff_calls_return (Binary64.of_int 60000)
                  (Binary64.of_int 20000) (Binary64.of_int 300)
                  (Binary64.dyadic 75 (-4)) Hdep)).
Defined.

(** * The report renderer *)

Section RendererSteps.
Variable units : page_units.
Variable now : clock.
Variable fmt : formats.

Lemma check_page_break_returns (y needed : Binary64.float) :
  check_page_break units y needed
  = Return (lands units y needed, page_break y needed).
Proof.
  unfold check_page_break, lands, page_break.
  destruct (y <? needed)%py; reflexivity.
Qed.

Lemma scenario_blocks_returns (l : list (string * Result.t Binary64.float)) :
  forall y,
    scenario_blocks units fmt l y
    = Return (blocks_cursor units (List.length l) y, blocks_ops units fmt l y).
Proof.
  induction l as [|[name res] rest IH]; intros y; [reflexivity|].
  cbn [scenario_blocks]. rewrite check_page_break_returns.
  cbn [rbind call rret]. rewrite IH.
  cbn [List.length blocks_cursor blocks_ops]. unfold block_ops.
  rewrite <- app_assoc. reflexivity.
Qed.

Lemma half_width_returns :
  lift (width units / decimal 20 1)%py
  = Return (fquot (width units) (decimal 20 1), []).
Proof. reflexivity. Qed.

Lemma texts_app (a b : list canvas_op) :
  texts (a ++ b) = (texts a ++ texts b)%list.
Proof. apply flat_map_app. Qed.

Lemma texts_page_break (y needed : Binary64.float) :
  texts (page_break y needed) = [].
Proof. unfold page_break. destruct (y <? needed)%py; reflexivity. Qed.

Lemma texts_blocks (l : list (string * Result.t Binary64.float)) :
  forall y, texts (blocks_ops units fmt l y) = flat_map (block_texts fmt) l.
Proof.
  induction l as [|item rest IH]; intros y; [reflexivity|].
  cbn [blocks_ops flat_map]. unfold block_ops.
  rewrite !texts_app, texts_page_break, IH. reflexivity.
Qed.
End RendererSteps.

Section RendererTrace.
Variable units : page_units.
Variable now : clock.
Variable fmt : formats.

Ltac run_render :=
  unfold draw_report, header, input_summary, affordability_results,
    scenario_analysis, footer_disclaimer;
  rewrite ?half_width_returns;
  repeat (progress (rewrite ?check_page_break_returns,
                      ?scenario_blocks_returns;
                    cbn [rbind call rret truthy])).

Lemma generate_pdf_report_of_draw (data : Result.t Binary64.float)
    (scenarios : option (list (string * Result.t Binary64.float)))
    (ops : list canvas_op) :
  draw_report units now fmt data scenarios = Return (tt, ops) ->
  generate_pdf_report units now fmt data scenarios
  = Return (ops, [newline ++ "✅ Successfully generated report: "
                    ++ filename now]).
Proof. intros H. unfold generate_pdf_report. now rewrite H. Qed.

(** The strings of a report, in the order drawn. *)
Lemma generate_pdf_report_texts (data : Result.t Binary64.float)
    (scenarios : option (list (string * Result.t Binary64.float))) :
  exists ops,
    generate_pdf_report units now fmt data scenarios
    = Return (ops, [newline ++ "✅ Successfully generated report: "
                      ++ filename now])
    /\ texts ops
       = (summary_texts now fmt data ++ scenario_texts fmt scenarios
          ++ [disclaimer])%list.
Proof.
  destruct (truthy scenarios) eqn:Htruthy.
  - destruct scenarios as [[|item rest]|]; try discriminate.
    eexists. split.
    + apply generate_pdf_report_of_draw. run_render. reflexivity.
    + rewrite ?texts_app, ?texts_page_break, ?texts_blocks. reflexivity.
  - eexists. split.
    + apply generate_pdf_report_of_draw. run_render. rewrite Htruthy.
      run_render. reflexivity.
    + rewrite ?texts_app, ?texts_page_break.
      destruct scenarios as [[|item rest]|]; try discriminate; reflexivity.
Qed.

(** X7. For every page geometry, clock reading, number formatting, result
    and scenario list, [generate_pdf_report] returns, prints the success
    line, and draws these strings in this order: the twelve lines of the
    first three sections, then - when the list is not empty - the heading
    "Scenario Analysis" and three lines per scenario in the order of the
    list, then the disclaimer.  Page breaks drop or reorder nothing. *)
Theorem report_texts_in_order (data : Result.t Binary64.float)
    (scenarios : option (list (string * Result.t Binary64.float))) :
  exists ops,
    generate_pdf_report units now fmt data scenarios
    = Return (ops, [newline ++ "✅ Successfully generated report: "
                      ++ filename now])
    /\ texts ops
       = (summary_texts now fmt data ++ scenario_texts fmt scenarios
          ++ [disclaimer])%list.
Proof. exact (generate_pdf_report_texts data scenarios). Qed.

Lemma draws_only_bind {A B : Type} (c : render A) (k : A -> render B) :
  draws_only c -> (forall a, draws_only (k a)) -> draws_only (rbind c k).
Proof.
  intros [a [ops [-> Hops]]] Hk. destruct (Hk a) as [b [ops' [Hb Hops']]].
  exists b, (ops ++ ops')%list. cbn [rbind]. rewrite Hb. split; [reflexivity|].
  now rewrite forallb_app, Hops, Hops'.
Qed.

Lemma draws_then_bind {A B : Type} (c : render A) (k : A -> render B)
    (last : list canvas_op) :
  draws_only c -> (forall a, draws_then (k a) last) ->
  draws_then (rbind c k) last.
Proof.
  intros [a [ops [-> Hops]]] Hk. destruct (Hk a) as [b [body [Hb Hbody]]].
  exists b, (ops ++ body)%list. cbn [rbind]. rewrite Hb.
  split; [now rewrite app_assoc|]. now rewrite forallb_app, Hops, Hbody.
Qed.

Lemma draws_only_call (op : canvas_op) :
  is_drawing op = true -> draws_only (call op).
Proof. intros Hop. exists tt, [op]. cbn [forallb]. now rewrite Hop. Qed.

Lemma draws_only_rret {A : Type} (a : A) : draws_only (rret a).
Proof. exists a, []. split; reflexivity. Qed.

Lemma draws_only_half_width :
  draws_only (lift (width units / decimal 20 1)%py).
Proof. eexists _, []. split; reflexivity. Qed.

Lemma draws_only_check_page_break (y needed : Binary64.float) :
  draws_only (check_page_break units y needed).
Proof.
  unfold check_page_break.
  destruct (y <? needed)%py; eexists _, _; split; reflexivity.
Qed.

Ltac draws :=
  repeat first
    [ apply draws_only_rret
    | apply draws_only_half_width
    | apply draws_only_check_page_break
    | apply draws_only_call; reflexivity
    | apply draws_only_bind; [|intros ?] ].

Lemma draws_only_scenario_blocks
    (l : list (string * Result.t Binary64.float)) :
  forall y, draws_only (scenario_blocks units fmt l y).
Proof.
  induction l as [|[name res] rest IH]; intros y; cbn [scenario_blocks];
    [apply draws_only_rret|].
  draws. apply IH.
Qed.

Lemma draws_only_header (y : Binary64.float) :
  draws_only (header units now y).
Proof. unfold header. draws. Qed.

Lemma draws_only_input_summary (data : Result.t Binary64.float)
    (y : Binary64.float) :
  draws_only (input_summary units fmt data y).
Proof. unfold input_summary. draws. Qed.

Lemma draws_only_affordability_results (data : Result.t Binary64.float)
    (y : Binary64.float) :
  draws_only (affordability_results units fmt data y).
Proof. unfold affordability_results. draws. Qed.

Lemma draws_only_scenario_analysis
    (scenarios : option (list (string * Result.t Binary64.float)))
    (y : Binary64.float) :
  draws_only (scenario_analysis units fmt scenarios y).
Proof.
  unfold scenario_analysis. destruct (truthy scenarios);
    [|apply draws_only_rret].
  draws. apply draws_only_scenario_blocks.
Qed.

Lemma footer_disclaimer_draws (y : Binary64.float) :
  draws_then (footer_disclaimer units y)
    [ SetFont "Helvetica-Oblique" 8;
      DrawCentredString (fquot (width units) (decimal 20 1))
        (dec_inches units 75 2) disclaimer;
      Save ].
Proof.
  unfold footer_disclaimer, check_page_break.
  destruct (y <? inches units 1)%py; eexists tt, _; split;
    reflexivity.
Qed.

(** X8. For every input, the canvas is opened first and saved last, each
    once, and the three last calls are always the same: the 8-point
    oblique font, the disclaimer centred at three quarters of an inch
    from the bottom, and the save - wherever the cursor stood. *)
Theorem report_opened_first_saved_last (data : Result.t Binary64.float)
    (scenarios : option (list (string * Result.t Binary64.float))) :
  exists ops body,
    generate_pdf_report units now fmt data scenarios
    = Return (ops, [newline ++ "✅ Successfully generated report: "
                      ++ filename now])
    /\ ops
       = NewCanvas (filename now)
         :: (body
             ++ [ SetFont "Helvetica-Oblique" 8;
                  DrawCentredString (fquot (width units) (decimal 20 1))
                    (dec_inches units 75 2) disclaimer;
                  Save ])%list
    /\ forallb is_drawing body = true.
Proof.
  pose proof (fun y => draws_then_bind _ _ _
                (draws_only_scenario_analysis scenarios y)
                (footer_disclaimer_draws)) as H4.
  pose proof (fun y => draws_then_bind _ _ _
                (draws_only_affordability_results data y) H4) as H3.
  pose proof (fun y => draws_then_bind _ _ _
                (draws_only_input_summary data y) H3) as H2.
  destruct (draws_then_bind _ _ _
              (draws_only_header (height units - inches units 1)%py) H2)
    as [[] [body [Hrun Hbody]]].
  eexists _, body. split; [|split; [reflexivity | exact Hbody]].
  apply generate_pdf_report_of_draw.
  match type of Hrun with
  | ?c = _ =>
      change (draw_report units now fmt data scenarios)
        with (rbind (call (NewCanvas (filename now))) (fun _ => c))
  end.
  rewrite Hrun. reflexivity.
Qed.
End RendererTrace.

(** * The layout on a letter page *)

Lemma next_slot_bound (k : nat) : (k < 13 -> next_slot k < 13)%nat.
Proof.
  intros Hk. unfold next_slot. destruct (Nat.eqb_spec k 12); lia.
Qed.

Ltac slots k :=
  do 13 (destruct k as [|k]; [vm_compute; reflexivity|]); lia.

Lemma loop_cursor_next (k : nat) :
  (k < 13)%nat ->
  block_cursor reportlab (loop_cursor reportlab k)
  = loop_cursor reportlab (next_slot k).
Proof. intros Hk. slots k. Qed.

Lemma loop_cursor_low (k : nat) :
  (k < 13)%nat ->
  (loop_cursor reportlab k <? inches reportlab 1)%py = low_slot k.
Proof. intros Hk. slots k. Qed.

(** ** Counting the positions under one inch *)

Lemma low_slots_period (n : nat) :
  forall k, (4 <= k < 13)%nat -> low_slots (n + 9) k = S (low_slots n k).
Proof.
  induction n as [|n IH]; intros k Hk.
  - do 4 (destruct k as [|k]; [lia|]).
    do 9 (destruct k as [|k]; [reflexivity|]). lia.
  - cbn [Nat.add low_slots]. rewrite IH.
    + lia.
    + unfold next_slot. destruct (Nat.eqb_spec k 12); lia.
Qed.

Lemma low_slots_cycle (m r : nat) :
  (r < 9)%nat -> low_slots (9 * m + r) 4 = (m + (r + 1) / 9)%nat.
Proof.
  intros Hr. induction m as [|m IH].
  - do 9 (destruct r as [|r]; [reflexivity|]). lia.
  - replace (9 * S m + r)%nat with ((9 * m + r) + 9)%nat by lia.
    rewrite low_slots_period by lia. rewrite IH. lia.
Qed.

Lemma low_slots_closed (n : nat) : low_slots n 0 = report_page_breaks n.
Proof.
  unfold report_page_breaks.
  do 4 (destruct n as [|n]; [reflexivity|]).
  change (low_slots (S (S (S (S n)))) 0) with (S (low_slots n 4)).
  change (S (S (S (S n))) <? 3)%nat with false. cbv iota.
  replace (S (S (S (S n))) - 3)%nat with (n + 1)%nat by lia.
  assert (Hn : exists q r, n = (9 * q + r)%nat /\ (r < 9)%nat).
  { exists (n / 9)%nat, (n mod 9)%nat.
    split; [apply Nat.div_mod_eq | apply Nat.mod_upper_bound; lia]. }
  destruct Hn as [q [r [-> Hr]]].
  rewrite low_slots_cycle by lia.
  replace (9 * q + r + 1)%nat with ((r + 1) + q * 9)%nat by lia.
  rewrite Nat.div_add by lia. lia.
Qed.

(** ** Lists of calls *)

Lemma page_breaks_app (a b : list canvas_op) :
  page_breaks (a ++ b) = (page_breaks a + page_breaks b)%nat.
Proof. unfold page_breaks. now rewrite filter_app, length_app. Qed.

Lemma page_breaks_none (ops : list canvas_op) :
  existsb is_show_page ops = false -> page_breaks ops = 0%nat.
Proof.
  unfold page_breaks. induction ops as [|op ops IH]; [reflexivity|].
  cbn [existsb filter]. destruct (is_show_page op); [discriminate|].
  exact IH.
Qed.

Lemma last_page_none (ops : list canvas_op) :
  existsb is_show_page ops = false -> last_page ops = ops.
Proof.
  destruct ops as [|op ops]; [reflexivity|]. cbn [existsb last_page].
  destruct (is_show_page op); [discriminate|]. cbn [orb].
  now intros ->.
Qed.

Lemma last_page_app (a b : list canvas_op) :
  last_page (a ++ b)
  = if existsb is_show_page b then last_page b
    else (last_page a ++ b)%list.
Proof.
  induction a as [|op a IH].
  - cbn [app last_page]. destruct (existsb is_show_page b) eqn:Hb;
      [reflexivity | now apply last_page_none].
  - cbn [app last_page]. rewrite existsb_app, IH.
    destruct (existsb is_show_page b).
    + now rewrite orb_true_r.
    + rewrite orb_false_r. destruct (existsb is_show_page a);
        [reflexivity|]. destruct (is_show_page op); reflexivity.
Qed.

Lemma last_page_forallb (P : canvas_op -> bool) (ops : list canvas_op) :
  forallb P ops = true -> forallb P (last_page ops) = true.
Proof.
  induction ops as [|op ops IH]; [reflexivity|].
  cbn [forallb last_page]. intros [Hop Hops]%andb_prop.
  destruct (existsb is_show_page ops); [now apply IH|].
  destruct (is_show_page op); [exact Hops|].
  cbn [forallb]. now rewrite Hop, Hops.
Qed.

Lemma tidy_app (units : page_units) (a b : list canvas_op) :
  tidy units a = true -> tidy units b = true -> tidy units (a ++ b) = true.
Proof.
  unfold tidy. intros [[Ha1 Ha2]%andb_prop Ha3]%andb_prop
    [[Hb1 Hb2]%andb_prop Hb3]%andb_prop.
  rewrite existsb_app, !forallb_app, Ha2, Ha3, Hb2, Hb3.
  apply negb_true_iff in Ha1, Hb1. now rewrite Ha1, Hb1.
Qed.

(** ** The sections of the report, one after the other *)

Lemma footer_disclaimer_returns (units : page_units) (y : Binary64.float) :
  footer_disclaimer units y
  = Return (tt, (page_break y (inches units 1) ++ footer_ops units)%list).
Proof.
  unfold footer_disclaimer, check_page_break, page_break.
  destruct (y <? inches units 1)%py; reflexivity.
Qed.

Lemma draw_report_sections (units : page_units) (now : clock) (fmt : formats)
    (data : Result.t Binary64.float)
    (scenarios : option (list (string * Result.t Binary64.float)))
    (y1 y2 y3 y4 : Binary64.float) (o1 o2 o3 o4 : list canvas_op) :
  header units now (height units - inches units 1)%py = Return (y1, o1) ->
  input_summary units fmt data y1 = Return (y2, o2) ->
  affordability_results units fmt data y2 = Return (y3, o3) ->
  scenario_analysis units fmt scenarios y3 = Return (y4, o4) ->
  draw_report units now fmt data scenarios
  = Return (tt, NewCanvas (filename now)
                :: ((o1 ++ o2 ++ o3) ++ o4
                    ++ page_break y4 (inches units 1)
                    ++ footer_ops units)%list).
Proof.
  intros H1 H2 H3 H4. unfold draw_report. rewrite H1. cbn [rbind call].
  rewrite H2. cbn [rbind]. rewrite H3. cbn [rbind]. rewrite H4.
  cbn [rbind]. rewrite footer_disclaimer_returns. cbn [app].
  now rewrite <- !app_assoc.
Qed.

Section Letter.
Variable now : clock.
Variable fmt : formats.

Lemma letter_first_sections (data : Result.t Binary64.float) :
  exists y1 y2 o1 o2 o3,
    header reportlab now (height reportlab - inches reportlab 1)%py
    = Return (y1, o1)
    /\ input_summary reportlab fmt data y1 = Return (y2, o2)
    /\ affordability_results reportlab fmt data y2
       = Return (analysis_cursor reportlab, o3)
    /\ tidy reportlab (o1 ++ o2 ++ o3) = true.
Proof.
  do 5 eexists. split; [reflexivity|]. split; [reflexivity|].
  split; [vm_compute; reflexivity|]. vm_compute. reflexivity.
Qed.

Lemma scenario_analysis_skipped
    (scenarios : option (list (string * Result.t Binary64.float)))
    (y : Binary64.float) :
  truthy scenarios = false ->
  scenario_analysis reportlab fmt scenarios y = Return (y, []).
Proof. intros H. unfold scenario_analysis. now rewrite H. Qed.

Lemma letter_scenario_analysis (item : string * Result.t Binary64.float)
    (rest : list (string * Result.t Binary64.float)) :
  exists heading,
    tidy reportlab heading = true
    /\ scenario_analysis reportlab fmt (Some (item :: rest))
         (analysis_cursor reportlab)
       = Return (blocks_cursor reportlab (List.length (item :: rest))
                   (loop_cursor reportlab 0),
                 (heading
                  ++ blocks_ops reportlab fmt (item :: rest)
                       (loop_cursor reportlab 0))%list).
Proof.
  exists [ SetFont "Helvetica-Bold" 14;
           DrawString (inches reportlab 1) (analysis_cursor reportlab)
             "Scenario Analysis";
           Line (inches reportlab 1)
             (analysis_cursor reportlab - dec_inches reportlab 5 2)%py
             (width reportlab - inches reportlab 1)%py
             (analysis_cursor reportlab - dec_inches reportlab 5 2)%py;
           SetFont "Helvetica" 12 ].
  split; [vm_compute; reflexivity|].
  unfold scenario_analysis. cbn [truthy].
  rewrite check_page_break_returns. cbn [rbind call rret].
  rewrite scenario_blocks_returns.
  replace (lands reportlab (analysis_cursor reportlab) (inches reportlab 2))
    with (analysis_cursor reportlab) by (vm_compute; reflexivity).
  replace (page_break (analysis_cursor reportlab) (inches reportlab 2))
    with (@nil canvas_op) by (vm_compute; reflexivity).
  cbn [app]. reflexivity.
Qed.

Lemma letter_report_shape (data : Result.t Binary64.float)
    (scenarios : option (list (string * Result.t Binary64.float))) :
  exists pre closing,
    generate_pdf_report reportlab now fmt data scenarios
    = Return (NewCanvas (filename now) :: (pre ++ closing)%list,
              [newline ++ "✅ Successfully generated report: "
                 ++ filename now])
    /\ tidy reportlab pre = true
    /\ ((truthy scenarios = false
         /\ closing = loop_ops reportlab fmt [] (analysis_cursor reportlab))
        \/ (exists l,
              scenarios = Some l /\ truthy scenarios = true
              /\ closing = loop_ops reportlab fmt l (loop_cursor reportlab 0))).
Proof.
  destruct (letter_first_sections data)
    as [y1 [y2 [o1 [o2 [o3 [H1 [H2 [H3 Hfront]]]]]]]].
  destruct (truthy scenarios) eqn:Htruthy.
  - destruct scenarios as [[|item rest]|]; try discriminate Htruthy.
    destruct (letter_scenario_analysis item rest) as [heading [Hheading H4]].
    exists ((o1 ++ o2 ++ o3) ++ heading)%list,
      (loop_ops reportlab fmt (item :: rest) (loop_cursor reportlab 0)).
    split; [|split; [apply tidy_app; assumption
                    |right; exists (item :: rest); repeat split]].
    apply generate_pdf_report_of_draw.
    rewrite (draw_report_sections _ _ _ _ _ _ _ _ _ _ _ _ _ H1 H2 H3 H4).
    unfold loop_ops. rewrite <- !app_assoc. reflexivity.
  - exists (o1 ++ o2 ++ o3)%list,
      (loop_ops reportlab fmt [] (analysis_cursor reportlab)).
    split; [|split; [exact Hfront | left; split; reflexivity]].
    apply generate_pdf_report_of_draw.
    rewrite (draw_report_sections _ _ _ _ _ _ _ _ _ _ _ _ _ H1 H2 H3
               (scenario_analysis_skipped _ _ Htruthy)).
    reflexivity.
Qed.
End Letter.

(** ** The scenario blocks *)

Section LetterLoop.
Variable now : clock.
Variable fmt : formats.

Lemma loop_ops_nil (y : Binary64.float) :
  loop_ops reportlab fmt [] y
  = (page_break y (inches reportlab 1) ++ footer_ops reportlab)%list.
Proof. reflexivity. Qed.

Lemma loop_ops_cons (item : string * Result.t Binary64.float)
    (rest : list (string * Result.t Binary64.float)) (k : nat) :
  (k < 13)%nat ->
  loop_ops reportlab fmt (item :: rest) (loop_cursor reportlab k)
  = (block_ops reportlab fmt item (loop_cursor reportlab k)
     ++ loop_ops reportlab fmt rest (loop_cursor reportlab (next_slot k)))%list.
Proof.
  intros Hk. unfold loop_ops. cbn [blocks_ops List.length blocks_cursor].
  rewrite (loop_cursor_next k Hk). now rewrite <- app_assoc.
Qed.

Lemma block_page_breaks (item : string * Result.t Binary64.float) (k : nat) :
  (k < 13)%nat ->
  page_breaks (block_ops reportlab fmt item (loop_cursor reportlab k))
  = if low_slot k then 1%nat else 0%nat.
Proof. intros Hk. slots k. Qed.

Lemma block_on_page (item : string * Result.t Binary64.float) (k : nat) :
  (k < 13)%nat ->
  forallb (on_page reportlab)
    (block_ops reportlab fmt item (loop_cursor reportlab k)) = true.
Proof. intros Hk. slots k. Qed.

Lemma block_above_footer (item : string * Result.t Binary64.float)
    (k : nat) :
  (k < 13)%nat -> low_slot (next_slot k) = false ->
  forallb (above_footer reportlab)
    (block_ops reportlab fmt item (loop_cursor reportlab k)) = true.
Proof.
  intros Hk.
  do 13 (destruct k as [|k];
         [vm_compute; intros H; first [reflexivity | discriminate H]|]).
  lia.
Qed.

Lemma loop_page_breaks (l : list (string * Result.t Binary64.float)) :
  forall k, (k < 13)%nat ->
    page_breaks (loop_ops reportlab fmt l (loop_cursor reportlab k))
    = low_slots (List.length l) k.
Proof.
  induction l as [|item rest IH]; intros k Hk.
  - rewrite loop_ops_nil. unfold page_break.
    rewrite (loop_cursor_low k Hk). cbn [List.length low_slots].
    destruct (low_slot k); reflexivity.
  - rewrite (loop_ops_cons item rest k Hk), page_breaks_app.
    rewrite (block_page_breaks item k Hk), IH by now apply next_slot_bound.
    reflexivity.
Qed.

Lemma loop_on_page (l : list (string * Result.t Binary64.float)) :
  forall k, (k < 13)%nat ->
    forallb (on_page reportlab)
      (loop_ops reportlab fmt l (loop_cursor reportlab k)) = true.
Proof.
  induction l as [|item rest IH]; intros k Hk.
  - rewrite loop_ops_nil. unfold page_break.
    destruct (loop_cursor reportlab k <? inches reportlab 1)%py;
      vm_compute; reflexivity.
  - rewrite (loop_ops_cons item rest k Hk), forallb_app.
    rewrite (block_on_page item k Hk), IH by now apply next_slot_bound.
    reflexivity.
Qed.

Lemma loop_breaks_when_low (l : list (string * Result.t Binary64.float))
    (k : nat) :
  (k < 13)%nat -> low_slot k = true ->
  existsb is_show_page (loop_ops reportlab fmt l (loop_cursor reportlab k))
  = true.
Proof.
  intros Hk Hlow. destruct l as [|item rest].
  - rewrite loop_ops_nil. unfold page_break.
    rewrite (loop_cursor_low k Hk), Hlow. reflexivity.
  - rewrite (loop_ops_cons item rest k Hk). unfold block_ops, page_break.
    rewrite (loop_cursor_low k Hk), Hlow. reflexivity.
Qed.

Lemma loop_last_page (l : list (string * Result.t Binary64.float)) :
  forall k, (k < 13)%nat ->
    exists body,
      last_page (loop_ops reportlab fmt l (loop_cursor reportlab k))
      = (body ++ footer_ops reportlab)%list
      /\ forallb (above_footer reportlab) body = true.
Proof.
  induction l as [|item rest IH]; intros k Hk.
  - exists []. split; [|reflexivity]. rewrite loop_ops_nil. unfold page_break.
    destruct (loop_cursor reportlab k <? inches reportlab 1)%py; reflexivity.
  - rewrite (loop_ops_cons item rest k Hk), last_page_app.
    destruct (IH (next_slot k) (next_slot_bound k Hk)) as [body [Hlast Hbody]].
    destruct (existsb is_show_page
                (loop_ops reportlab fmt rest
                   (loop_cursor reportlab (next_slot k)))) eqn:Hbreak.
    + exists body. now split.
    + rewrite (last_page_none _ Hbreak) in Hlast. rewrite Hlast.
      exists (last_page (block_ops reportlab fmt item (loop_cursor reportlab k))
              ++ body)%list.
      split; [apply app_assoc|]. rewrite forallb_app, Hbody, andb_true_r.
      apply last_page_forallb, block_above_footer; [exact Hk|].
      destruct (low_slot (next_slot k)) eqn:Hlow; [|reflexivity].
      rewrite (loop_breaks_when_low rest _ (next_slot_bound k Hk) Hlow)
        in Hbreak.
      discriminate Hbreak.
Qed.
End LetterLoop.

Section LetterReport.
Variable now : clock.
Variable fmt : formats.

Lemma tidy_parts (ops : list canvas_op) :
  tidy reportlab ops = true ->
  existsb is_show_page ops = false
  /\ forallb (on_page reportlab) ops = true
  /\ forallb (above_footer reportlab) ops = true.
Proof.
  unfold tidy. intros [[H1 H2]%andb_prop H3]%andb_prop.
  apply negb_true_iff in H1. repeat split; assumption.
Qed.

Lemma unbroken_closing :
  loop_ops reportlab fmt [] (analysis_cursor reportlab)
  = footer_ops reportlab.
Proof.
  rewrite loop_ops_nil.
  replace (page_break (analysis_cursor reportlab) (inches reportlab 1))
    with (@nil canvas_op) by (vm_compute; reflexivity).
  reflexivity.
Qed.

Lemma footer_ops_on_page :
  forallb (on_page reportlab) (footer_ops reportlab) = true.
Proof. vm_compute. reflexivity. Qed.

(** X9. On a letter page a report without scenarios has one page, and a
    report with [n] scenarios has no page break when [n] is 1 or 2 and
    [1 + (n - 3) / 9] page breaks when [n] is 3 or more: the first page
    takes three blocks and every later page nine, and a block that ends
    a page exactly pushes the disclaimer onto a page of its own. *)
Theorem letter_report_page_breaks (data : Result.t Binary64.float)
    (scenarios : option (list (string * Result.t Binary64.float))) :
  exists ops,
    generate_pdf_report reportlab now fmt data scenarios
    = Return (ops, [newline ++ "✅ Successfully generated report: "
                      ++ filename now])
    /\ page_breaks ops
       = report_page_breaks (List.length (listed scenarios)).
Proof.
  destruct (letter_report_shape now fmt data scenarios)
    as [pre [closing [Hrun [Hpre Hclosing]]]].
  destruct (tidy_parts pre Hpre) as [Hbreaks _].
  eexists. split; [exact Hrun|].
  change (page_breaks (NewCanvas (filename now) :: pre ++ closing))
    with (page_breaks (pre ++ closing)).
  rewrite page_breaks_app, (page_breaks_none pre Hbreaks).
  destruct Hclosing as [[Htruthy ->]|[l [-> [_ ->]]]].
  - rewrite unbroken_closing.
    destruct scenarios as [[|item rest]|]; try discriminate Htruthy;
      reflexivity.
  - rewrite (loop_page_breaks fmt l 0) by lia. apply low_slots_closed.
Qed.

(** X10. On a letter page every string and every rule of the report is
    anchored strictly inside the page, whatever the number of
    scenarios. *)
Theorem letter_report_on_page (data : Result.t Binary64.float)
    (scenarios : option (list (string * Result.t Binary64.float))) :
  exists ops,
    generate_pdf_report reportlab now fmt data scenarios
    = Return (ops, [newline ++ "✅ Successfully generated report: "
                      ++ filename now])
    /\ forallb (on_page reportlab) ops = true.
Proof.
  destruct (letter_report_shape now fmt data scenarios)
    as [pre [closing [Hrun [Hpre Hclosing]]]].
  destruct (tidy_parts pre Hpre) as [_ [Hon _]].
  eexists. split; [exact Hrun|].
  cbn [forallb on_page]. rewrite forallb_app, Hon.
  destruct Hclosing as [[Htruthy ->]|[l [-> [_ ->]]]].
  - rewrite unbroken_closing. apply footer_ops_on_page.
  - apply (loop_on_page fmt l 0). lia.
Qed.

(** X11. On a letter page the disclaimer, drawn three quarters of an inch
    from the bottom, never meets other content: on the last page of the
    report every other string or rule lies one inch or more above the
    bottom. *)
Theorem letter_disclaimer_is_clear (data : Result.t Binary64.float)
    (scenarios : option (list (string * Result.t Binary64.float))) :
  exists ops body,
    generate_pdf_report reportlab now fmt data scenarios
    = Return (ops, [newline ++ "✅ Successfully generated report: "
                      ++ filename now])
    /\ last_page ops = (body ++ footer_ops reportlab)%list
    /\ forallb (above_footer reportlab) body = true.
Proof.
  destruct (letter_report_shape now fmt data scenarios)
    as [pre [closing [Hrun [Hpre Hclosing]]]].
  destruct (tidy_parts pre Hpre) as [Hbreaks [_ Habove]].
  assert (Hfirst : last_page (NewCanvas (filename now) :: pre)
                   = NewCanvas (filename now) :: pre)
    by (apply last_page_none; exact Hbreaks).
  assert (Hclear : exists body,
    last_page ((NewCanvas (filename now) :: pre) ++ closing)
    = (body ++ footer_ops reportlab)%list
    /\ forallb (above_footer reportlab) body = true).
  { rewrite last_page_app, Hfirst.
    destruct Hclosing as [[Htruthy ->]|[l [-> [_ ->]]]].
    - rewrite unbroken_closing. exists (NewCanvas (filename now) :: pre).
      split; [reflexivity | exact Habove].
    - destruct (loop_last_page fmt l 0) as [body [Hlast Hbody]]; [lia|].
      destruct (existsb is_show_page
                  (loop_ops reportlab fmt l (loop_cursor reportlab 0)))
        eqn:Hbreak.
      + exists body. split; assumption.
      + rewrite (last_page_none _ Hbreak) in Hlast. rewrite Hlast.
        exists ((NewCanvas (filename now) :: pre) ++ body)%list.
        split; [apply app_assoc|].
        rewrite forallb_app, Hbody, andb_true_r. exact Habove. }
  destruct Hclear as [body [Hlast Hbody]].
  eexists _, body. split; [exact Hrun|]. split; assumption.
Qed.
End LetterReport.

(** * The program as a whole *)

Section Main.
Variable units : page_units.
Variable now : clock.
Variable fmt : formats.
Variable args : arguments.

Local Abbreviation base_call :=
  (calculate_affordability (arg_income args) (arg_deposit args)
     (arg_debts args) (arg_rate args)).

Local Abbreviation scenario_run :=
  (run_scenario_testing (arg_income args) (arg_deposit args)
     (arg_debts args) (arg_rate args)).

Local Abbreviation success_line :=
  (newline ++ "✅ Successfully generated report: " ++ filename now).

Lemma generate_pdf_report_returns (data : Result.t Binary64.float)
    (scenarios : option (list (string * Result.t Binary64.float))) :
  exists ops,
    generate_pdf_report units now fmt data scenarios
    = Return (NewCanvas (filename now) :: ops, [success_line]).
Proof.
  destruct (draws_only_header units now (height units - inches units 1)%py)
    as [y1 [o1 [H1 _]]].
  destruct (draws_only_input_summary units fmt data y1) as [y2 [o2 [H2 _]]].
  destruct (draws_only_affordability_results units fmt data y2)
    as [y3 [o3 [H3 _]]].
  destruct (draws_only_scenario_analysis units fmt scenarios y3)
    as [y4 [o4 [H4 _]]].
  eexists. apply generate_pdf_report_of_draw.
  apply (draw_report_sections _ _ _ _ _ _ _ _ _ _ _ _ _ H1 H2 H3 H4).
Qed.


(** X13. When the program ends normally, the first calculation returned
    and, with [--scenario], the scenario run returned too; the canvas
    was opened before any other canvas call, and the last line printed
    is the success line. *)
Theorem main_returns_after_calculations :
  ended (main units now fmt args) = Return tt ->
  (exists base, base_call = Return base)
  /\ (arg_scenario args = true -> exists l, snd scenario_run = Return l)
  /\ exists out ops,
       printed (main units now fmt args) = (out ++ [success_line])%list
       /\ drawn (main units now fmt args) = NewCanvas (filename now) :: ops.
Proof.
  unfold main. destruct base_call as [base|e0] eqn:Hbase.
  - destruct (arg_scenario args).
    + destruct scenario_run as [out [l|e1]] eqn:Hrun.
      * destruct (generate_pdf_report_returns base (Some l)) as [ops ->].
        cbn [ended printed drawn snd]. intros _.
        split; [now exists base|]. split; [intros _; now exists l|].
        now exists out, ops.
      * cbn [ended]. intros Hend. discriminate Hend.
    + destruct (generate_pdf_report_returns base None) as [ops ->].
      cbn [ended printed drawn]. intros _.
      split; [now exists base|]. split; [intros Hflag; discriminate Hflag|].
      now exists [], ops.
  - cbn [ended]. intros Hend. discriminate Hend.
Qed.
End Main.


(** X13 at an income of 60000 and a rate of zero, without
    [--scenario]. *)
Lemma main_returns_after_calculations_witness :
  let args := {| arg_income := Binary64.of_int 60000;
                 arg_deposit := Binary64.of_int 20000;
                 arg_debts := Binary64.of_int 300;
                 arg_rate := Binary64.of_int 0;
                 arg_scenario := false |} in
  ended (main reportlab sample_clock sample_formats args) = Return tt
  /\ (exists base,
        calculate_affordability (arg_income args) (arg_deposit args)
          (arg_debts args) (arg_rate args) = Return base)
  /\ exists out ops,
       printed (main reportlab sample_clock sample_formats args)
       = (out ++ [(newline ++ "✅ Successfully generated report: "
                     ++ filename sample_clock)%string])%list
       /\ drawn (main reportlab sample_clock sample_formats args)
          = NewCanvas (filename sample_clock) :: ops.
Proof.
  intros args.
  assert (Hend : ended (main reportlab sample_clock sample_formats args)
                 = Return tt)
    by (vm_compute; reflexivity).
  split; [exact Hend|].
  destruct (main_returns_after_calculations reportlab sample_clock
              sample_formats args Hend) as [Hbase [_ Hout]].
  split; [exact Hbase | exact Hout].
Defined.

Section MainTexts.
Variable units : page_units.
Variable now : clock.
Variable fmt : formats.
Variable args : arguments.

(** X15. A run that ends normally has drawn the summary of the first
    calculation, then the scenario section, then the disclaimer; without
    [--scenario] there is no scenario section, and with it and a deposit
    that is not negative the first block is "Base Case" and shows the
    property value and the payment of the summary again. *)
Theorem main_report_texts :
  ended (main units now fmt args) = Return tt ->
  exists base scenarios,
    calculate_affordability (arg_income args) (arg_deposit args)
      (arg_debts args) (arg_rate args) = Return base
    /\ texts (drawn (main units now fmt args))
       = (summary_texts now fmt base ++ scenario_texts fmt scenarios
          ++ [disclaimer])%list
    /\ (arg_scenario args = false -> scenarios = None)
    /\ (arg_scenario args = true ->
        (arg_deposit args <? of_int 0)%py = false ->
        exists rest, scenarios = Some (("Base Case", base) :: rest)).
Proof.
  unfold main.
  destruct (calculate_affordability (arg_income args) (arg_deposit args)
              (arg_debts args) (arg_rate args)) as [base|e0] eqn:Hbase;
    [|discriminate].
  destruct (arg_scenario args).
  - destruct (run_scenario_testing (arg_income args) (arg_deposit args)
                (arg_debts args) (arg_rate args)) as [out [l|e]] eqn:Hrun;
      [|discriminate].
    destruct (generate_pdf_report_texts units now fmt base (Some l))
      as [ops [-> Htexts]].
    cbn [drawn]. intros _. exists base, (Some l).
    split; [reflexivity|]. split; [exact Htexts|].
    split; [discriminate|]. intros _ Hdep.
    destruct (run_first_entry calculate_affordability _ _ _ _ _ _ Hdep Hrun)
      as [first [rest [Hfirst ->]]].
    rewrite Hbase in Hfirst. injection Hfirst as <-. now exists rest.
  - destruct (generate_pdf_report_texts units now fmt base None)
      as [ops [-> Htexts]].
    cbn [drawn]. intros _. exists base, None.
    split; [reflexivity|]. split; [exact Htexts|].
    split; [reflexivity | discriminate].
Qed.
End MainTexts.

(** X15 at an income of 60000, a deposit of 20000, debts of 300 and a rate
    of -1.5 with [--scenario]. *)
Lemma main_report_texts_witness :
  let args := {| arg_income := Binary64.of_int 60000;
                 arg_deposit := Binary64.of_int 20000;
                 arg_debts := Binary64.of_int 300;
                 arg_rate := Binary64.dyadic (-3) (-1);
                 arg_scenario := true |} in
  ended (main reportlab sample_clock sample_formats args) = Return tt
  /\ exists base scenarios,
       calculate_affordability (arg_income args) (arg_deposit args)
         (arg_debts args) (arg_rate args) = Return base
       /\ texts (drawn (main reportlab sample_clock sample_formats args))
          = (summary_texts sample_clock sample_formats base
             ++ scenario_texts sample_formats scenarios
             ++ [disclaimer])%list
       /\ (arg_scenario args = false -> scenarios = None)
       /\ (arg_scenario args = true ->
           (arg_deposit args <? of_int 0)%py = false ->
           exists rest, scenarios = Some (("Base Case", base) :: rest)).
Proof.
  intros args.
  assert (Hend : ended (main reportlab sample_clock sample_formats args)
                 = Return tt)
    by (vm_compute; reflexivity).
  split; [exact Hend|].
  exact (main_report_texts reportlab sample_clock sample_formats args Hend).
Defined.

Section LetterMain.
Variable now : clock.
Variable fmt : formats.
Variable args : arguments.

Lemma letter_report_pages (data : Result.t Binary64.float)
    (l : option (list (string * Result.t Binary64.float)))
    (ops : list canvas_op) (lines : list string) :
  generate_pdf_report reportlab now fmt data l = Return (ops, lines) ->
  (List.length (listed l) < 3)%nat ->
  page_breaks ops = 0%nat.
Proof.
  intros Hrun Hlen.
  destruct (letter_report_shape now fmt data l)
    as [pre [closing [Hshape [Hpre Hclosing]]]].
  rewrite Hshape in Hrun. injection Hrun as <- _.
  destruct (tidy_parts pre Hpre) as [Hbreaks _].
  change (page_breaks (NewCanvas (filename now) :: pre ++ closing))
    with (page_breaks (pre ++ closing)).
  rewrite page_breaks_app, (page_breaks_none pre Hbreaks).
  destruct Hclosing as [[Htruthy ->]|[l' [-> [_ ->]]]].
  - rewrite unbroken_closing. reflexivity.
  - rewrite (loop_page_breaks fmt l' 0) by lia. cbn [listed] in Hlen.
    do 3 (destruct l' as [|? l']; [reflexivity|]). cbn [List.length] in Hlen.
    lia.
Qed.

Lemma letter_report_three (data : Result.t Binary64.float)
    (a b c : string * Result.t Binary64.float)
    (ops : list canvas_op) (lines : list string) :
  generate_pdf_report reportlab now fmt data (Some [a; b; c])
  = Return (ops, lines) ->
  page_breaks ops = 1%nat /\ last_page ops = footer_ops reportlab.
Proof.
  intros Hrun.
  destruct (letter_report_shape now fmt data (Some [a; b; c]))
    as [pre [closing [Hshape [Hpre Hclosing]]]].
  rewrite Hshape in Hrun. injection Hrun as <- _.
  destruct (tidy_parts pre Hpre) as [Hbreaks _].
  destruct Hclosing as [[Htruthy _]|[l' [[= <-] [_ ->]]]];
    [discriminate Htruthy|].
  split.
  - change (page_breaks (NewCanvas (filename now)
                         :: pre ++ loop_ops reportlab fmt [a; b; c]
                                     (loop_cursor reportlab 0)))
      with (page_breaks (pre ++ loop_ops reportlab fmt [a; b; c]
                                  (loop_cursor reportlab 0))).
    rewrite page_breaks_app, (page_breaks_none pre Hbreaks).
    rewrite (loop_page_breaks fmt [a; b; c] 0) by lia. reflexivity.
  - change (NewCanvas (filename now)
            :: pre ++ loop_ops reportlab fmt [a; b; c]
                        (loop_cursor reportlab 0))
      with ((NewCanvas (filename now) :: pre)
            ++ loop_ops reportlab fmt [a; b; c] (loop_cursor reportlab 0))%list.
    rewrite last_page_app.
    replace (existsb is_show_page
               (loop_ops reportlab fmt [a; b; c] (loop_cursor reportlab 0)))
      with true by (vm_compute; reflexivity).
    vm_compute. reflexivity.
Qed.

(** X14. On a letter page, a run of the program that ends normally leaves
    a report of one page, except when it passes three scenarios to the
    report - [--scenario] with a deposit of 10000 or more: the third
    block then ends the first page, and the report has a second page
    that holds the disclaimer and nothing else. *)
Theorem main_report_pages :
  ended (main reportlab now fmt args) = Return tt ->
  page_breaks (drawn (main reportlab now fmt args))
  = (if three_scenarios args then 1%nat else 0%nat)
  /\ (three_scenarios args = true ->
      last_page (drawn (main reportlab now fmt args))
      = footer_ops reportlab).
Proof.
  unfold main, three_scenarios.
  destruct (calculate_affordability (arg_income args) (arg_deposit args)
              (arg_debts args) (arg_rate args)) as [base|e0] eqn:Hbase;
    [|discriminate].
  destruct (arg_scenario args); cbn [andb].
  - unfold run_scenario_testing, run_scenario_testing_with, scenarios.
    cbn [scenario_loop Params.deposit Params.rate].
    destruct (arg_deposit args <? of_int 0)%py eqn:Hdep;
      cbn [negb andb].
    + destruct (arg_deposit args - of_int 10000 <? of_int 0)%py.
      * destruct (generate_pdf_report_returns reportlab now fmt base (Some []))
          as [ops Hrun].
        cbn [app]. rewrite Hrun. cbn [drawn]. intros _.
        split; [|discriminate].
        apply (letter_report_pages _ _ _ _ Hrun). cbn. lia.
      * destruct (calculate_affordability (arg_income args)
                    (arg_deposit args - of_int 10000)%py (arg_debts args)
                    (arg_rate args)) as [lower|e]; [|discriminate].
        cbn [app].
        destruct (generate_pdf_report_returns reportlab now fmt base
                    (Some [("Lower Deposit (-£10,000)", lower)]))
          as [ops Hrun].
        rewrite Hrun. cbn [drawn]. intros _. split; [|discriminate].
        apply (letter_report_pages _ _ _ _ Hrun). cbn. lia.
    + rewrite Hbase. cbn [app].
      destruct (calculate_affordability (arg_income args) (arg_deposit args)
                  (arg_debts args) (arg_rate args + lit_1_5)%py)
        as [high|e]; [|discriminate].
      cbn [app].
      destruct (arg_deposit args - of_int 10000 <? of_int 0)%py; cbn [negb].
      * destruct (generate_pdf_report_returns reportlab now fmt base
                    (Some [("Base Case", base);
                           ("High Interest Rate (+1.5%)", high)]))
          as [ops Hrun].
        rewrite Hrun. cbn [drawn]. intros _. split; [|discriminate].
        apply (letter_report_pages _ _ _ _ Hrun). cbn. lia.
      * destruct (calculate_affordability (arg_income args)
                    (arg_deposit args - of_int 10000)%py (arg_debts args)
                    (arg_rate args)) as [lower|e]; [|discriminate].
        cbn [app].
        destruct (generate_pdf_report_returns reportlab now fmt base
                    (Some [("Base Case", base);
                           ("High Interest Rate (+1.5%)", high);
                           ("Lower Deposit (-£10,000)", lower)]))
          as [ops Hrun].
        rewrite Hrun. cbn [drawn]. intros _.
        destruct (letter_report_three _ _ _ _ _ _ Hrun) as [Hn Hlast].
        split; [exact Hn | intros _; exact Hlast].
  - destruct (generate_pdf_report_returns reportlab now fmt base None)
      as [ops Hrun].
    rewrite Hrun. cbn [drawn]. intros _. split; [|discriminate].
    apply (letter_report_pages _ _ _ _ Hrun). cbn. lia.
Qed.
End LetterMain.

(** X14 at an income of 60000, a deposit of 20000, debts of 300 and a rate
    of -1.5 with [--scenario]: three scenarios, two pages. *)
Lemma main_report_pages_witness :
  let args := {| arg_income := Binary64.of_int 60000;
                 arg_deposit := Binary64.of_int 20000;
                 arg_debts := Binary64.of_int 300;
                 arg_rate := Binary64.dyadic (-3) (-1);
                 arg_scenario := true |} in
  ended (main reportlab sample_clock sample_formats args) = Return tt
  /\ three_scenarios args = true
  /\ page_breaks (drawn (main reportlab sample_clock sample_formats args))
     = 1%nat
  /\ last_page (drawn (main reportlab sample_clock sample_formats args))
     = footer_ops reportlab.
Proof.
  intros args.
  assert (Hend : ended (main reportlab sample_clock sample_formats args)
                 = Return tt)
    by (vm_compute; reflexivity).
  assert (Hthree : three_scenarios args = true) by (vm_compute; reflexivity).
  pose proof (main_report_pages sample_clock sample_formats args Hend)
    as [Hn Hlast].
  rewrite Hthree in Hn.
  split; [exact Hend|]. split; [exact Hthree|].
  split; [exact Hn | exact (Hlast Hthree)].
Defined.
